(** * The SSE ReLU micro-kernel [xnn_f32_relu_ukernel__sse_x4]

    A shallow embedding of
    [src/pytorch/third_party/XNNPACK/src/f32-relu/gen/sse-x4.c]
    and the properties of it that the specification states.

    Conventions of the model.
    - A single-precision value is a [spec_float] of the Standard Library,
      read at precision 24 and maximal exponent 128 (IEEE-754 binary32).
      A NaN carries no payload there; the kernel never inspects one.
    - Memory is one flat store of floats.  A [float*] is the index of a
      float cell (its byte address divided by [sizeof(float)]), so the C
      statement [x += 4] is [x + 4] here and [NULL] is [0].  Input and
      output live in the same store, which is what lets them alias.
    - Every memory access is logged, so that the footprint of a call can be
      stated next to its result.  Module [Protected] runs the same code on a
      machine that kills the process at an access outside the cells it may
      read or write; statements about completion are made there.
    - [size_t] and pointers are unbounded integers; the kernel only ever
      decreases [n] while [n >= 16], so no wrap-around is reachable.
    - The SSE intrinsics follow the Intel instruction-set reference for
      MOVUPS, MOVLPS, MOVSS, MOVHLPS, XORPS and MAXPS, with the default
      MXCSR (denormals are not flushed). *)

From Stdlib Require Import ZArith List Bool Lia.
From Stdlib Require Import Floats.SpecFloat.
Import ListNotations.
Local Open Scope Z_scope.

(** ** Single-precision floats *)

Module F32.

Definition float : Type := spec_float.

Definition prec : Z := 24.
Definition emax : Z := 128.

(** The values a binary32 register can hold. *)
Definition valid (f : float) : bool := valid_binary prec emax f.

Definition pzero : float := S754_zero false.
Definition nzero : float := S754_zero true.

Definition is_nan (f : float) : bool :=
  match f with S754_nan => true | _ => false end.

Definition is_zero (f : float) : bool :=
  match f with S754_zero _ => true | _ => false end.

(** Finite in the IEEE sense: a zero, a subnormal or a normal number. *)
Definition is_finite (f : float) : bool :=
  match f with S754_zero _ | S754_finite _ _ _ => true | _ => false end.

(** [of_Z_pow2 m e] is the binary32 nearest to [m * 2^e]; exact whenever
    [m] fits in 24 bits and the exponent is in range. *)
Definition of_Z_pow2 (m e : Z) : float := binary_normalize prec emax m e false.

(** The C comparison [a == b] on floats. *)
Definition eqb (a b : float) : bool := SFeqb a b.

(** The C comparison [a < b] on floats. *)
Definition ltb (a b : float) : bool := SFltb a b.

End F32.

Import F32.

(** ** 128-bit registers and the register-only intrinsics *)

(** [__m128]: four packed single-precision lanes, lane 0 lowest. *)
Record __m128 : Type := mk_m128 {
  lane0 : float;
  lane1 : float;
  lane2 : float;
  lane3 : float
}.

(** [_mm_setzero_ps()]: all lanes [+0.0]. *)
Definition _mm_setzero_ps : __m128 := mk_m128 pzero pzero pzero pzero.

(** One lane of MAXPS, as the instruction-set reference gives it:
<<
   IF ((SRC1 = 0.0) and (SRC2 = 0.0)) THEN DEST := SRC2;
   ELSE IF (SRC1 = NaN) THEN DEST := SRC2;
   ELSE IF (SRC2 = NaN) THEN DEST := SRC2;
   ELSE IF (SRC1 > SRC2) THEN DEST := SRC1;
   ELSE DEST := SRC2;
>> *)
Definition MAX (src1 src2 : float) : float :=
  if is_zero src1 && is_zero src2 then src2
  else if is_nan src1 then src2
  else if is_nan src2 then src2
  else if ltb src2 src1 then src1
  else src2.

(** [_mm_max_ps(a, b)]: lane-wise MAXPS with [a] as first source. *)
Definition _mm_max_ps (a b : __m128) : __m128 :=
  mk_m128 (MAX (lane0 a) (lane0 b)) (MAX (lane1 a) (lane1 b))
          (MAX (lane2 a) (lane2 b)) (MAX (lane3 a) (lane3 b)).

(** [_mm_movehl_ps(a, b)]: the upper half of [b] moves to the lower half of
    the result, the upper half of [a] stays. *)
Definition _mm_movehl_ps (a b : __m128) : __m128 :=
  mk_m128 (lane2 b) (lane3 b) (lane2 a) (lane3 a).

(** ** Memory, access log and the kernel's monad *)

Definition mem : Type := Z -> float.

Definition upd (m : mem) (p : Z) (v : float) : mem :=
  fun q => if q =? p then v else m q.

(** An access of [lanes] consecutive floats starting at cell [p]. *)
Inductive event : Type :=
| Load (p : Z) (lanes : nat)
| Store (p : Z) (lanes : nat).

(** The cells [p, p+1, ..., p+k-1]. *)
Definition cells (p : Z) (k : nat) : list Z :=
  map (fun i => p + Z.of_nat i) (seq 0 k).

Definition loads_of (e : event) : list Z :=
  match e with Load p k => cells p k | Store _ _ => [] end.

Definition stores_of (e : event) : list Z :=
  match e with Load _ _ => [] | Store p k => cells p k end.

(** Cells read, and cells written, by a log, in program order. *)
Definition loads (t : list event) : list Z := flat_map loads_of t.
Definition stores (t : list event) : list Z := flat_map stores_of t.

(** How a run ends: normally, with a value, the final memory and the log of
    its accesses; on a failed [assert]; or because the model's loop budget
    ran out (shown below never to happen with a sufficient budget). *)
Inductive outcome (A : Type) : Type :=
| Done (a : A) (m : mem) (t : list event)
| AssertFail
| OutOfFuel.

Arguments Done {A} a m t.
Arguments AssertFail {A}.
Arguments OutOfFuel {A}.

Definition M (A : Type) : Type := mem -> outcome A.

Definition ret {A : Type} (a : A) : M A := fun m => Done a m [].

Definition bind {A B : Type} (c : M A) (k : A -> M B) : M B :=
  fun m =>
    match c m with
    | Done a m1 t1 =>
        match k a m1 with
        | Done b m2 t2 => Done b m2 (t1 ++ t2)
        | AssertFail => AssertFail
        | OutOfFuel => OutOfFuel
        end
    | AssertFail => AssertFail
    | OutOfFuel => OutOfFuel
    end.

Notation "v <- c ;; k" := (bind c (fun v => k))
  (at level 61, c at next level, right associativity).
Notation "' pat <- c ;; k" := (bind c (fun v => match v with pat => k end))
  (at level 61, pat pattern, c at next level, right associativity).
Notation "c ;; k" := (bind c (fun _ => k))
  (at level 61, right associativity).

(** [assert(b)] of a checked build. *)
Definition assert (b : bool) : M unit :=
  fun m => if b then Done tt m [] else AssertFail.

Definition out_of_fuel {A : Type} : M A := fun _ => OutOfFuel.

(** ** The memory intrinsics *)

(** [_mm_loadu_ps(p)]: unaligned load of [p[0..3]]. *)
Definition _mm_loadu_ps (p : Z) : M __m128 :=
  fun m => Done (mk_m128 (m p) (m (p + 1)) (m (p + 2)) (m (p + 3))) m [Load p 4].

(** [_mm_storeu_ps(p, a)]: unaligned store of all four lanes to [p[0..3]]. *)
Definition _mm_storeu_ps (p : Z) (a : __m128) : M unit :=
  fun m =>
    Done tt
         (upd (upd (upd (upd m p (lane0 a)) (p + 1) (lane1 a))
                   (p + 2) (lane2 a)) (p + 3) (lane3 a))
         [Store p 4].

(** [_mm_storel_pi(p, a)], with [p] cast to a pointer to [__m64]: store of
    the two low lanes to [p[0..1]]. *)
Definition _mm_storel_pi (p : Z) (a : __m128) : M unit :=
  fun m => Done tt (upd (upd m p (lane0 a)) (p + 1) (lane1 a)) [Store p 2].

(** [_mm_store_ss(p, a)]: store of lane 0 to [p[0]]. *)
Definition _mm_store_ss (p : Z) (a : __m128) : M unit :=
  fun m => Done tt (upd m p (lane0 a)) [Store p 1].

(** ** The kernel *)

Definition sizeof_float : Z := 4.

Section Kernel.

(** [union xnn_f32_relu_params] is declared in a header outside the
    translated file; the kernel is generic in it. *)
Variable xnn_f32_relu_params : Type.

(** The [for] loop of lines 31-39.  It returns the values of [n], [x] and
    [y] on exit.  [fuel] bounds the number of iterations of the model. *)
Fixpoint main_loop (fuel : nat) (vzero : __m128) (n x y : Z) : M (Z * Z * Z) :=
  if 4 * sizeof_float <=? n then
    match fuel with
    | O => out_of_fuel
    | S fuel' =>
        vacc0123 <- _mm_loadu_ps x ;;
        let x := x + 4 in
        let vacc0123 := _mm_max_ps vacc0123 vzero in
        _mm_storeu_ps y vacc0123 ;;
        let y := y + 4 in
        main_loop fuel' vzero (n - 4 * sizeof_float) x y
    end
  else ret (n, x, y).

(** The body of [if XNN_UNLIKELY(n != 0)], lines 41-51. *)
Definition tail (vzero : __m128) (n x y : Z) : M unit :=
  vacc <- _mm_loadu_ps x ;;
  let vacc := _mm_max_ps vacc vzero in
  '(vacc, y) <-
     (if negb (Z.land n (2 * sizeof_float) =? 0) then
        _mm_storel_pi y vacc ;;
        ret (_mm_movehl_ps vacc vacc, y + 2)
      else ret (vacc, y)) ;;
  if negb (Z.land n (1 * sizeof_float) =? 0) then _mm_store_ss y vacc
  else ret tt.

Definition xnn_f32_relu_ukernel__sse_x4
    (fuel : nat) (n x y : Z) (params : xnn_f32_relu_params) : M unit :=
  assert (negb (n =? 0)) ;;
  assert (n mod sizeof_float =? 0) ;;
  assert (negb (x =? 0)) ;;
  assert (negb (y =? 0)) ;;
  let vzero := _mm_setzero_ps in
  '(n, x, y) <- main_loop fuel vzero n x y ;;
  if negb (n =? 0) then tail vzero n x y else ret tt.

End Kernel.

Arguments xnn_f32_relu_ukernel__sse_x4 {xnn_f32_relu_params} fuel n x y params.

(** ** The kernel under memory protection *)

(** The same code on a machine that kills the process at the first access
    to a cell it may not read, or may not write.  The intrinsics are those
    above behind that check, and the kernel is the same text over them. *)
Module Protected.

(** The cells the process may read and the cells it may write. *)
Record protection : Type := {
  readable : Z -> bool;
  writable : Z -> bool
}.

Definition permitted (prot : protection) (e : event) : bool :=
  match e with
  | Load p k => forallb (readable prot) (cells p k)
  | Store p k => forallb (writable prot) (cells p k)
  end.

(** [Killed t e]: the process was killed at access [e], after the accesses
    [t]. *)
Inductive outcome (A : Type) : Type :=
| Completed (a : A) (m : mem) (t : list event)
| AssertFailed
| FuelOut
| Killed (t : list event) (e : event).

Arguments Completed {A} a m t.
Arguments AssertFailed {A}.
Arguments FuelOut {A}.
Arguments Killed {A} t e.

(** The access [e], performed by [c], behind the check. *)
Definition guarded {A : Type} (prot : protection) (e : event) (c : M A)
    : mem -> outcome A :=
  fun m =>
    if permitted prot e then
      match c m with
      | Done a m' t => Completed a m' t
      | AssertFail => AssertFailed
      | OutOfFuel => FuelOut
      end
    else Killed [] e.

Definition M (A : Type) : Type := mem -> outcome A.

Definition ret {A : Type} (a : A) : M A := fun m => Completed a m [].

Definition bind {A B : Type} (c : M A) (k : A -> M B) : M B :=
  fun m =>
    match c m with
    | Completed a m1 t1 =>
        match k a m1 with
        | Completed b m2 t2 => Completed b m2 (t1 ++ t2)
        | AssertFailed => AssertFailed
        | FuelOut => FuelOut
        | Killed t2 e => Killed (t1 ++ t2) e
        end
    | AssertFailed => AssertFailed
    | FuelOut => FuelOut
    | Killed t1 e => Killed t1 e
    end.

#[local] Set Warnings "-notation-overridden".

#[local] Notation "v <- c ;; k" := (bind c (fun v => k))
  (at level 61, c at next level, right associativity).
#[local] Notation "' pat <- c ;; k" :=
  (bind c (fun v => match v with pat => k end))
  (at level 61, pat pattern, c at next level, right associativity).
#[local] Notation "c ;; k" := (bind c (fun _ => k))
  (at level 61, right associativity).

Definition assert (b : bool) : M unit :=
  fun m => if b then Completed tt m [] else AssertFailed.

Definition out_of_fuel {A : Type} : M A := fun _ => FuelOut.

Section Kernel.

Variable prot : protection.
Variable xnn_f32_relu_params : Type.

Definition _mm_loadu_ps (p : Z) : M __m128 :=
  guarded prot (Load p 4) (_mm_loadu_ps p).

Definition _mm_storeu_ps (p : Z) (a : __m128) : M unit :=
  guarded prot (Store p 4) (_mm_storeu_ps p a).

Definition _mm_storel_pi (p : Z) (a : __m128) : M unit :=
  guarded prot (Store p 2) (_mm_storel_pi p a).

Definition _mm_store_ss (p : Z) (a : __m128) : M unit :=
  guarded prot (Store p 1) (_mm_store_ss p a).

(** Lines 31-39. *)
Fixpoint main_loop (fuel : nat) (vzero : __m128) (n x y : Z) : M (Z * Z * Z) :=
  if 4 * sizeof_float <=? n then
    match fuel with
    | O => out_of_fuel
    | S fuel' =>
        vacc0123 <- _mm_loadu_ps x ;;
        let x := x + 4 in
        let vacc0123 := _mm_max_ps vacc0123 vzero in
        _mm_storeu_ps y vacc0123 ;;
        let y := y + 4 in
        main_loop fuel' vzero (n - 4 * sizeof_float) x y
    end
  else ret (n, x, y).

(** Lines 41-51. *)
Definition tail (vzero : __m128) (n x y : Z) : M unit :=
  vacc <- _mm_loadu_ps x ;;
  let vacc := _mm_max_ps vacc vzero in
  '(vacc, y) <-
     (if negb (Z.land n (2 * sizeof_float) =? 0) then
        _mm_storel_pi y vacc ;;
        ret (_mm_movehl_ps vacc vacc, y + 2)
      else ret (vacc, y)) ;;
  if negb (Z.land n (1 * sizeof_float) =? 0) then _mm_store_ss y vacc
  else ret tt.

Definition xnn_f32_relu_ukernel__sse_x4
    (fuel : nat) (n x y : Z) (params : xnn_f32_relu_params) : M unit :=
  assert (negb (n =? 0)) ;;
  assert (n mod sizeof_float =? 0) ;;
  assert (negb (x =? 0)) ;;
  assert (negb (y =? 0)) ;;
  let vzero := _mm_setzero_ps in
  '(n, x, y) <- main_loop fuel vzero n x y ;;
  if negb (n =? 0) then tail vzero n x y else ret tt.

End Kernel.

Arguments xnn_f32_relu_ukernel__sse_x4 prot {xnn_f32_relu_params} fuel n x y params.

(** A process that owns exactly the two buffers of [N] floats: it may read
    both and write the output. *)
Definition exact_buffers (x y N : Z) : protection := {|
  readable := fun a => ((x <=? a) && (a <? x + N)) || ((y <=? a) && (a <? y + N));
  writable := fun a => (y <=? a) && (a <? y + N)
|}.

(** The same with the input buffer readable up to the next whole vector. *)
Definition padded_buffers (x y N : Z) : protection := {|
  readable := fun a =>
    ((x <=? a) && (a <? x + 4 * ((N + 3) / 4))) || ((y <=? a) && (a <? y + N));
  writable := fun a => (y <=? a) && (a <? y + N)
|}.

End Protected.

(** ** Vocabulary of the statements *)

(** The scalar reference of the specification, [max(a, b)], as the usual
    C expression [a < b ? b : a]. *)
Definition max_ref (a b : float) : float := if ltb a b then b else a.

(** The [k] floats of the buffer that starts at cell [p]. *)
Definition read_buf (m : mem) (p : Z) (k : nat) : list float :=
  map m (cells p k).

(** A memory holding the buffer [l] at cell [base] and [rest] elsewhere. *)
Definition mem_of_list (base : Z) (l : list float) (rest : mem) : mem :=
  fun p =>
    if (base <=? p) && (p <? base + Z.of_nat (length l))
    then nth (Z.to_nat (p - base)) l S754_nan
    else rest p.

(** The two placements of the output buffer that the data model supports:
    exactly on the input buffer, or disjoint from it. *)
Definition in_place_or_disjoint (x y N : Z) : Prop :=
  y = x \/ y + N <= x \/ x + N <= y.

(** The weaker condition the kernel needs: no store lands on an input
    element that is still to be read. *)
Definition no_clobber (x y N : Z) : Prop := y <= x \/ x + N <= y.

(** Number of iterations of the main loop for a byte count [n]. *)
Definition iterations (n : Z) : nat := Z.to_nat (n / (4 * sizeof_float)).

(** Accesses of [k] iterations of the main loop, in program order. *)
Fixpoint main_trace (k : nat) (x y : Z) : list event :=
  match k with
  | O => []
  | S k' => Load x 4 :: Store y 4 :: main_trace k' (x + 4) (y + 4)
  end.

(** The partial stores of the tail for a byte count [n] and cursor [y]:
    two lanes when bit [2 * sizeof(float)] of [n] is set, then one lane
    when bit [1 * sizeof(float)] is set. *)
Definition tail_stores (n y : Z) : list event :=
  let two := negb (Z.land n (2 * sizeof_float) =? 0) in
  let one := negb (Z.land n (1 * sizeof_float) =? 0) in
  (if two then [Store y 2] else []) ++
  (if one then [Store (if two then y + 2 else y) 1] else []).

(** Accesses of the code after the main loop. *)
Definition tail_trace (n x y : Z) : list event :=
  if n mod (4 * sizeof_float) =? 0 then [] else Load x 4 :: tail_stores n y.

(** Every cell read by the log lies inside the [N]-element buffer at [x]. *)
Definition reads_within (t : list event) (x N : Z) : Prop :=
  Forall (fun a => x <= a < x + N) (loads t).

(** The test vector of the specification and the expected result. *)
Definition mixed_input : list float :=
  [of_Z_pow2 (-7) (-1); pzero; of_Z_pow2 9 (-2); nzero; of_Z_pow2 7 0].

Definition mixed_output : list float :=
  [pzero; pzero; of_Z_pow2 9 (-2); pzero; of_Z_pow2 7 0].

(** A background memory for concrete runs: NaN in every cell. *)
Definition all_nan : mem := fun _ => S754_nan.

(** The test vector at cells [100 .. 104], NaN everywhere else. *)
Definition demo_mem : mem := mem_of_list 100 mixed_input all_nan.

(** * Properties *)

(** ** Floats *)

Lemma SFcompare_refl (f : float) :
  is_nan f = false -> SFcompare f f = Some Eq.
Proof.
  destruct f as [s | s | | s m e]; simpl; try discriminate; intros _.
  - reflexivity.
  - destruct s; reflexivity.
  - rewrite Z.compare_refl, Pos.compare_cont_refl. destruct s; reflexivity.
Qed.

Lemma eqb_refl (f : float) : is_nan f = false -> eqb f f = true.
Proof. intros H. unfold eqb, SFeqb. now rewrite SFcompare_refl. Qed.

(** What one lane of the kernel computes, case by case. *)
Lemma MAX_zero_cases (v : float) :
  MAX v pzero = if ltb pzero v then v else pzero.
Proof. destruct v as [s | s | | s m e]; try destruct s; reflexivity. Qed.

Lemma MAX_nan (v : float) : is_nan v = true -> MAX v pzero = pzero.
Proof. destruct v; simpl; try discriminate; reflexivity. Qed.

Lemma MAX_zero (v : float) : is_zero v = true -> MAX v pzero = pzero.
Proof. destruct v; simpl; try discriminate; reflexivity. Qed.

Lemma MAX_idem (v : float) : MAX (MAX v pzero) pzero = MAX v pzero.
Proof. destruct v as [s | s | | s m e]; try destruct s; reflexivity. Qed.

Lemma MAX_eq_max_ref (v : float) :
  is_finite v = true -> eqb (MAX v pzero) (max_ref v pzero) = true.
Proof.
  destruct v as [s | s | | s m e]; simpl; try discriminate; intros _.
  - reflexivity.
  - destruct s; [reflexivity |].
    change (MAX (S754_finite false m e) pzero) with (S754_finite false m e).
    change (max_ref (S754_finite false m e) pzero) with (S754_finite false m e).
    now apply eqb_refl.
Qed.

(** ** Cells and logs *)

Lemma cells_shift (p : Z) (b : nat) : forall s : nat,
  map (fun i => p + Z.of_nat i) (seq s b) = cells (p + Z.of_nat s) b.
Proof.
  unfold cells. induction b as [| b IH]; intros s; [reflexivity |].
  cbn [seq map]. f_equal; [lia |].
  rewrite IH, <- seq_shift, map_map. apply map_ext. intros i. lia.
Qed.

Lemma cells_app (p : Z) (a b : nat) :
  cells p (a + b) = cells p a ++ cells (p + Z.of_nat a) b.
Proof.
  unfold cells at 1 2. rewrite seq_app, map_app. f_equal.
  apply cells_shift.
Qed.

Lemma in_cells (p : Z) (k : nat) (a : Z) :
  In a (cells p k) <-> p <= a < p + Z.of_nat k.
Proof.
  unfold cells. rewrite in_map_iff. split.
  - intros (i & <- & Hi). apply in_seq in Hi. lia.
  - intros H. exists (Z.to_nat (a - p)). split; [lia |]. apply in_seq. lia.
Qed.

Lemma loads_app (t1 t2 : list event) : loads (t1 ++ t2) = loads t1 ++ loads t2.
Proof. apply flat_map_app. Qed.

Lemma stores_app (t1 t2 : list event) :
  stores (t1 ++ t2) = stores t1 ++ stores t2.
Proof. apply flat_map_app. Qed.

Lemma stores_main_trace (k : nat) : forall x y,
  stores (main_trace k x y) = cells y (4 * k).
Proof.
  induction k as [| k IH]; intros x y; [reflexivity |].
  replace (4 * S k)%nat with (4 + 4 * k)%nat by lia.
  rewrite cells_app. cbn [main_trace]. unfold stores in *.
  cbn [flat_map stores_of app]. rewrite IH. reflexivity.
Qed.

Lemma loads_main_trace (k : nat) : forall x y,
  loads (main_trace k x y) = cells x (4 * k).
Proof.
  induction k as [| k IH]; intros x y; [reflexivity |].
  replace (4 * S k)%nat with (4 + 4 * k)%nat by lia.
  rewrite cells_app. cbn [main_trace]. unfold loads in *.
  cbn [flat_map loads_of app]. rewrite IH. reflexivity.
Qed.

(** ** The main loop *)

Ltac upd_cases :=
  unfold upd;
  repeat match goal with
         | |- context [?a =? ?b] => destruct (Z.eqb_spec a b); try lia
         end.

Lemma main_loop_exit (fuel : nat) (vz : __m128) (n x y : Z) (m : mem) :
  n < 16 -> main_loop fuel vz n x y m = Done (n, x, y) m [].
Proof.
  intros H. change 16 with (4 * sizeof_float) in H.
  apply Z.leb_gt in H. destruct fuel; cbn [main_loop]; rewrite H; reflexivity.
Qed.

(** [k] iterations with enough budget: the exit values of [n], [x], [y], the
    log, the cells left untouched, and, when no store clobbers an input
    element still to be read, the values stored. *)
Lemma main_loop_spec (k : nat) :
  forall (fuel : nat) (n x y : Z) (m : mem) (r x' y' : Z),
    (k <= fuel)%nat ->
    r = n - 16 * Z.of_nat k -> 0 <= r < 16 ->
    x' = x + 4 * Z.of_nat k -> y' = y + 4 * Z.of_nat k ->
    exists m',
      main_loop fuel _mm_setzero_ps n x y m
        = Done (r, x', y') m' (main_trace k x y) /\
      (forall a, ~ (y <= a < y') -> m' a = m a) /\
      (no_clobber x y (4 * Z.of_nat k) ->
       forall i, 0 <= i < 4 * Z.of_nat k -> m' (y + i) = MAX (m (x + i)) pzero).
Proof.
  induction k as [| k IH]; intros fuel n x y m r x' y' Hf Hr Hr16 Hx Hy.
  - exists m. rewrite main_loop_exit by lia.
    replace r with n by lia. replace x' with x by lia. replace y' with y by lia.
    split; [reflexivity |]. split; [reflexivity |]. intros _ i Hi. lia.
  - destruct fuel as [| fuel]; [lia |].
    cbn [main_loop].
    replace (4 * sizeof_float <=? n) with true
      by (symmetry; apply Z.leb_le; unfold sizeof_float; lia).
    unfold bind at 1. unfold _mm_loadu_ps at 1.
    unfold bind at 1. unfold _mm_storeu_ps at 1.
    set (m1 := upd _ _ _).
    destruct (IH fuel (n - 4 * sizeof_float) (x + 4) (y + 4) m1 r x' y')
      as (m' & Hrun & Hframe & Hval);
      try (unfold sizeof_float; lia).
    rewrite Hrun. exists m'. split; [reflexivity |]. split.
    + intros a Ha. rewrite Hframe by lia. subst m1. cbn [lane0 lane1 lane2 lane3 _mm_max_ps].
      upd_cases. reflexivity.
    + intros Hnc i Hi.
      destruct (Z.lt_ge_cases i 4) as [Hlt | Hge].
      * rewrite Hframe by lia. subst m1.
        cbn [lane0 lane1 lane2 lane3 _mm_max_ps _mm_setzero_ps].
        assert (Hc : i = 0 \/ i = 1 \/ i = 2 \/ i = 3) by lia.
        destruct Hc as [-> | [-> | [-> | ->]]]; rewrite ?Z.add_0_r;
          upd_cases; reflexivity.
      * replace (y + i) with (y + 4 + (i - 4)) by lia.
        rewrite Hval; [| unfold no_clobber in *; lia | lia].
        f_equal. replace (x + 4 + (i - 4)) with (x + i) by lia.
        subst m1. unfold no_clobber in Hnc. upd_cases. reflexivity.
Qed.

(** ** The tail *)

Lemma land_residual (n b : Z) :
  Z.land 15 b = b -> Z.land (n mod 16) b = Z.land n b.
Proof.
  intros Hb. change 16 with (2 ^ 4). rewrite <- Z.land_ones by lia.
  rewrite <- Z.land_assoc. change (Z.ones 4) with 15. now rewrite Hb.
Qed.

Lemma tail_stores_residual (n y : Z) :
  tail_stores (n mod 16) y = tail_stores n y.
Proof.
  unfold tail_stores, sizeof_float.
  change (2 * 4) with 8. change (1 * 4) with 4.
  rewrite !land_residual by reflexivity. reflexivity.
Qed.

(** The tail for a residual of [R] floats, [1 <= R <= 3]: one full-width
    load at [x], then the partial stores; exactly the cells [y .. y+R-1]
    change, and they receive the clamped lanes loaded from [x .. x+R-1]. *)
Lemma tail_spec (n x y : Z) (m : mem) (R : Z) :
  n = R * sizeof_float -> 1 <= R <= 3 ->
  exists m',
    tail _mm_setzero_ps n x y m = Done tt m' (Load x 4 :: tail_stores n y) /\
    stores (tail_stores n y) = cells y (Z.to_nat R) /\
    (forall a, ~ (y <= a < y + R) -> m' a = m a) /\
    (forall i, 0 <= i < R -> m' (y + i) = MAX (m (x + i)) pzero).
Proof.
  intros Hn HR.
  assert (Hc : R = 1 \/ R = 2 \/ R = 3) by lia.
  destruct Hc as [-> | [-> | ->]]; subst n; cbn;
    (eexists; split; [reflexivity |]; split; [| split]).
  all: try (intros a Ha; upd_cases; reflexivity).
  all: try (intros i Hi;
            assert (Hi' : i = 0 \/ i = 1 \/ i = 2) by lia;
            destruct Hi' as [-> | [-> | ->]]; try lia; rewrite ?Z.add_0_r;
            upd_cases; reflexivity).
  all: unfold cells; simpl; rewrite ?Z.add_0_r; reflexivity.
Qed.

(** ** The whole kernel *)

Lemma bind_Done {A B : Type} (c : M A) (k : A -> M B) (m : mem)
    (a : A) (m1 : mem) (t1 : list event) (b : B) (m2 : mem) (t2 : list event) :
  c m = Done a m1 t1 -> k a m1 = Done b m2 t2 ->
  bind c k m = Done b m2 (t1 ++ t2).
Proof. intros H1 H2. unfold bind. now rewrite H1, H2. Qed.

Lemma assert_true (b : bool) (m : mem) : b = true -> assert b m = Done tt m [].
Proof. intros ->. reflexivity. Qed.

Lemma bind_assert_true {B : Type} (k : unit -> M B) (m : mem) :
  bind (assert true) k m = k tt m.
Proof. unfold bind, assert. destruct (k tt m); reflexivity. Qed.

(** Splitting an element count into full vectors and remainder. *)
Lemma split_count (N : Z) :
  1 <= N ->
  0 <= N / 4 /\ 0 <= N mod 4 < 4 /\ N = 4 * (N / 4) + N mod 4 /\
  (N * sizeof_float) / 16 = N / 4 /\
  (N * sizeof_float) mod 16 = N mod 4 * sizeof_float.
Proof.
  intros HN. unfold sizeof_float.
  pose proof (Z.div_mod N 4 ltac:(lia)) as Hdm.
  pose proof (Z.mod_pos_bound N 4 ltac:(lia)) as Hmod.
  pose proof (Z.div_pos N 4 ltac:(lia) ltac:(lia)) as Hdiv.
  repeat split; try lia.
  - change 16 with (4 * 4). apply Z.div_mul_cancel_r; lia.
  - change 16 with (4 * 4). apply Z.mul_mod_distr_r; lia.
Qed.

Section KernelProperties.

Context {P : Type}.

(** On valid arguments the four [assert]s pass and the call is the main loop
    followed by the guarded tail. *)
Lemma kernel_valid_unfold (fuel : nat) (n x y : Z) (params : P) (m : mem) :
  n <> 0 -> n mod sizeof_float = 0 -> x <> 0 -> y <> 0 ->
  xnn_f32_relu_ukernel__sse_x4 fuel n x y params m =
  ('(n, x, y) <- main_loop fuel _mm_setzero_ps n x y ;;
   if negb (n =? 0) then tail _mm_setzero_ps n x y else ret tt) m.
Proof.
  intros Hn Hmod Hx Hy. unfold xnn_f32_relu_ukernel__sse_x4.
  apply Z.eqb_neq in Hn, Hx, Hy. apply Z.eqb_eq in Hmod.
  rewrite Hn, Hx, Hy. cbn [negb].
  rewrite bind_assert_true. cbv beta.
  rewrite Hmod.
  rewrite !bind_assert_true. reflexivity.
Qed.

(** The master statement: with a budget of at least [iterations n], a call
    on [N >= 1] elements and non-null pointers completes; its log is that of
    the main loop followed by that of the tail; only the [N] output cells
    change; and, when no store clobbers an input element still to be read,
    output element [i] is [MAXPS(input[i], +0.0)]. *)
Lemma kernel_spec (fuel : nat) (N x y : Z) (params : P) (m : mem) :
  1 <= N -> x <> 0 -> y <> 0 ->
  (iterations (N * sizeof_float) <= fuel)%nat ->
  exists m',
    xnn_f32_relu_ukernel__sse_x4 fuel (N * sizeof_float) x y params m
      = Done tt m'
          (main_trace (Z.to_nat (N / 4)) x y ++
           tail_trace (N * sizeof_float)
                      (x + 4 * (N / 4)) (y + 4 * (N / 4))) /\
    (forall a, ~ (y <= a < y + N) -> m' a = m a) /\
    (no_clobber x y N ->
     forall i, 0 <= i < N -> m' (y + i) = MAX (m (x + i)) pzero).
Proof.
  intros HN Hx Hy Hfuel.
  destruct (split_count N HN) as (Hk & HR & Hsplit & Hdiv & Hmod).
  unfold iterations in Hfuel. change (4 * sizeof_float) with 16 in Hfuel.
  rewrite Hdiv in Hfuel.
  set (n := N * sizeof_float) in *.
  set (k := N / 4) in *. set (R := N mod 4) in *.
  assert (Hn : n = 16 * k + 4 * R) by (unfold n, sizeof_float; lia).
  destruct (main_loop_spec (Z.to_nat k) fuel n x y m
              (4 * R) (x + 4 * k) (y + 4 * k))
    as (m1 & Hrun & Hframe1 & Hval1); try lia.
  rewrite Z2Nat.id in Hval1 by lia.
  rewrite kernel_valid_unfold;
    [| unfold n, sizeof_float; lia
     | unfold n; apply Z.mod_mul; unfold sizeof_float; lia
     | exact Hx | exact Hy ].
  destruct (Z.eq_dec R 0) as [HR0 | HR0].
  - (* no remainder: the tail is skipped *)
    exists m1. split; [| split].
    + erewrite bind_Done;
        [| exact Hrun | cbv beta iota; rewrite HR0; reflexivity ].
      unfold tail_trace. change (4 * sizeof_float) with 16.
      rewrite Hmod, HR0. reflexivity.
    + intros a Ha. apply Hframe1. lia.
    + intros Hnc i Hi. apply Hval1; [unfold no_clobber in *; lia | lia].
  - destruct (tail_spec (4 * R) (x + 4 * k) (y + 4 * k) m1 R)
      as (m2 & Htail & _ & Hframe2 & Hval2);
      [unfold sizeof_float; lia | lia |].
    exists m2. split; [| split].
    + erewrite bind_Done;
        [| exact Hrun
         | cbv beta iota;
           replace (negb (4 * R =? 0)) with true
             by (symmetry; apply negb_true_iff, Z.eqb_neq; lia);
           exact Htail ].
      unfold tail_trace. change (4 * sizeof_float) with 16.
      rewrite Hmod.
      replace (R * sizeof_float =? 0) with false
        by (symmetry; apply Z.eqb_neq; unfold sizeof_float; lia).
      rewrite <- (tail_stores_residual n), Hmod.
      replace (R * sizeof_float) with (4 * R) by (unfold sizeof_float; lia).
      reflexivity.
    + intros a Ha. rewrite Hframe2 by lia. apply Hframe1. lia.
    + intros Hnc i Hi.
      destruct (Z.lt_ge_cases i (4 * k)) as [Hlt | Hge].
      * rewrite Hframe2 by lia.
        apply Hval1; [unfold no_clobber in *; lia | lia].
      * replace (y + i) with (y + 4 * k + (i - 4 * k)) by lia.
        rewrite Hval2 by lia. f_equal.
        replace (x + 4 * k + (i - 4 * k)) with (x + i) by lia.
        apply Hframe1. unfold no_clobber in Hnc. lia.
Qed.

End KernelProperties.

(** ** Buffers *)

Lemma read_buf_ext (m1 m2 : mem) (p q : Z) (k : nat) :
  (forall i, 0 <= i < Z.of_nat k -> m1 (p + i) = m2 (q + i)) ->
  read_buf m1 p k = read_buf m2 q k.
Proof.
  intros H. unfold read_buf, cells. rewrite !map_map.
  apply map_ext_in. intros i Hi. apply in_seq in Hi. apply H. lia.
Qed.

Lemma read_buf_nth (m : mem) (p : Z) (k : nat) (i : Z) (d : float) :
  0 <= i < Z.of_nat k -> nth (Z.to_nat i) (read_buf m p k) d = m (p + i).
Proof.
  intros Hi. unfold read_buf, cells. rewrite map_map.
  rewrite nth_indep with (d' := m (p + Z.of_nat 0))
    by (rewrite length_map, length_seq; lia).
  rewrite (map_nth (fun j => m (p + Z.of_nat j))), seq_nth by lia.
  f_equal. lia.
Qed.

Lemma in_place_or_disjoint_no_clobber (x y N : Z) :
  in_place_or_disjoint x y N -> 0 <= N -> no_clobber x y N.
Proof. unfold in_place_or_disjoint, no_clobber. lia. Qed.

Lemma stores_tail_trace (N x' y' : Z) :
  1 <= N ->
  stores (tail_trace (N * sizeof_float) x' y') = cells y' (Z.to_nat (N mod 4)).
Proof.
  intros HN. destruct (split_count N HN) as (_ & HR & _ & _ & Hmod).
  unfold tail_trace. change (4 * sizeof_float) with 16. rewrite Hmod.
  destruct (Z.eqb_spec (N mod 4 * sizeof_float) 0) as [H0 | H0].
  - replace (N mod 4) with 0 by (unfold sizeof_float in H0; lia). reflexivity.
  - rewrite <- tail_stores_residual, Hmod.
    destruct (tail_spec (N mod 4 * sizeof_float) 0 y' all_nan (N mod 4))
      as (_ & _ & Hst & _); [reflexivity | unfold sizeof_float in H0; lia |].
    exact Hst.
Qed.

Lemma iterations_step (n : Z) :
  16 <= n -> iterations n = S (iterations (n - 16)).
Proof.
  intros H. unfold iterations. change (4 * sizeof_float) with 16.
  replace n with (n - 16 + 1 * 16) at 1 by lia.
  rewrite Z.div_add by lia.
  assert (0 <= (n - 16) / 16) by (apply Z.div_pos; lia). lia.
Qed.

(** The result of the main loop does not depend on the budget, once the
    budget covers its iterations. *)
Lemma main_loop_fuel_irrelevant (vz : __m128) (f1 : nat) :
  forall (f2 : nat) (n x y : Z) (m : mem),
    (iterations n <= f1)%nat -> (iterations n <= f2)%nat ->
    main_loop f1 vz n x y m = main_loop f2 vz n x y m.
Proof.
  induction f1 as [| f1 IH]; intros f2 n x y m H1 H2.
  - destruct (Z.lt_ge_cases n 16) as [Hlt | Hge].
    + now rewrite !main_loop_exit.
    + rewrite iterations_step in H1 by lia. lia.
  - destruct (Z.lt_ge_cases n 16) as [Hlt | Hge].
    + now rewrite !main_loop_exit.
    + rewrite iterations_step in H1, H2 by lia.
      destruct f2 as [| f2]; [lia |].
      cbn [main_loop]. change (4 * sizeof_float) with 16.
      replace (16 <=? n) with true by (symmetry; apply Z.leb_le; lia).
      unfold bind, _mm_loadu_ps, _mm_storeu_ps.
      rewrite (IH f2) by lia. reflexivity.
Qed.

(** ** What a call depends on *)

(** Two memories that agree on a set [A] of cells containing the [4 * k]
    input elements of the main loop go through the same iterations, and end
    up agreeing on [A] and on the cells written. *)
Lemma main_loop_agree (k : nat) :
  forall (A : Z -> Prop) (fuel : nat) (n x y : Z) (m1 m2 : mem) (r x' y' : Z),
    (k <= fuel)%nat ->
    r = n - 16 * Z.of_nat k -> 0 <= r < 16 ->
    x' = x + 4 * Z.of_nat k -> y' = y + 4 * Z.of_nat k ->
    (forall a, A a -> m1 a = m2 a) ->
    (forall i, 0 <= i < 4 * Z.of_nat k -> A (x + i)) ->
    exists m1' m2',
      main_loop fuel _mm_setzero_ps n x y m1
        = Done (r, x', y') m1' (main_trace k x y) /\
      main_loop fuel _mm_setzero_ps n x y m2
        = Done (r, x', y') m2' (main_trace k x y) /\
      (forall a, A a \/ y <= a < y' -> m1' a = m2' a).
Proof.
  induction k as [| k IH];
    intros A fuel n x y m1 m2 r x' y' Hf Hr Hr16 Hx Hy Hag HA.
  - exists m1, m2. rewrite !main_loop_exit by lia.
    replace r with n by lia. replace x' with x by lia. replace y' with y by lia.
    split; [reflexivity |]. split; [reflexivity |].
    intros a [Ha | Ha]; [now apply Hag | lia].
  - destruct fuel as [| fuel]; [lia |].
    cbn [main_loop].
    replace (4 * sizeof_float <=? n) with true
      by (symmetry; apply Z.leb_le; unfold sizeof_float; lia).
    unfold bind at 1 3. unfold _mm_loadu_ps at 1 2.
    unfold bind at 1 2. unfold _mm_storeu_ps at 1 2.
    cbn [lane0 lane1 lane2 lane3 _mm_max_ps _mm_setzero_ps].
    assert (H0 : m1 x = m2 x)
      by (apply Hag; replace x with (x + 0) by lia; apply HA; lia).
    assert (H1 : m1 (x + 1) = m2 (x + 1)) by (apply Hag, HA; lia).
    assert (H2 : m1 (x + 2) = m2 (x + 2)) by (apply Hag, HA; lia).
    assert (H3 : m1 (x + 3) = m2 (x + 3)) by (apply Hag, HA; lia).
    rewrite H0, H1, H2, H3.
    set (a1 := upd (upd (upd (upd m1 _ _) _ _) _ _) _ _).
    set (a2 := upd (upd (upd (upd m2 _ _) _ _) _ _) _ _).
    destruct (IH (fun a => A a \/ y <= a < y + 4)
                 fuel (n - 4 * sizeof_float) (x + 4) (y + 4) a1 a2 r x' y')
      as (m1' & m2' & Hrun1 & Hrun2 & Hag');
      try (unfold sizeof_float; lia).
    + intros a Ha. subst a1 a2. upd_cases; try reflexivity.
      destruct Ha as [Ha | Ha]; [now apply Hag | lia].
    + intros i Hi. left. replace (x + 4 + i) with (x + (4 + i)) by lia.
      apply HA. lia.
    + exists m1', m2'. rewrite Hrun1, Hrun2.
      split; [reflexivity |]. split; [reflexivity |].
      intros a Ha. apply Hag'.
      destruct Ha as [Ha | Ha]; [left; left; exact Ha |].
      destruct (Z.lt_ge_cases a (y + 4)); [left; right; lia | right; lia].
Qed.

(** The same for the tail: only the [R] lanes that are stored matter. *)
Lemma tail_agree (A : Z -> Prop) (n x y : Z) (m1 m2 : mem) (R : Z) :
  n = R * sizeof_float -> 1 <= R <= 3 ->
  (forall a, A a -> m1 a = m2 a) ->
  (forall i, 0 <= i < R -> A (x + i)) ->
  exists m1' m2',
    tail _mm_setzero_ps n x y m1
      = Done tt m1' (Load x 4 :: tail_stores n y) /\
    tail _mm_setzero_ps n x y m2
      = Done tt m2' (Load x 4 :: tail_stores n y) /\
    (forall a, A a \/ y <= a < y + R -> m1' a = m2' a).
Proof.
  intros Hn HR Hag HA.
  destruct (tail_spec n x y m1 R Hn HR) as (m1' & Hrun1 & _ & Hfr1 & Hval1).
  destruct (tail_spec n x y m2 R Hn HR) as (m2' & Hrun2 & _ & Hfr2 & Hval2).
  exists m1', m2'. split; [exact Hrun1 |]. split; [exact Hrun2 |].
  intros a Ha.
  destruct (Z.lt_ge_cases a y) as [Hlt | Hge];
    [| destruct (Z.lt_ge_cases a (y + R)) as [Hlt' | Hge']].
  - rewrite Hfr1, Hfr2 by lia. apply Hag. destruct Ha; [assumption | lia].
  - replace a with (y + (a - y)) by lia.
    rewrite Hval1, Hval2 by lia. f_equal. apply Hag, HA. lia.
  - rewrite Hfr1, Hfr2 by lia. apply Hag. destruct Ha; [assumption | lia].
Qed.

Section Dependence.

Context {P : Type}.

(** The outcome of a call is a function of the [N] input elements alone:
    neither the parameter block nor any other cell of the memory, the cells
    after the input buffer that the tail loads included, has an influence
    on the log or on what is stored. *)
Lemma kernel_agree (A : Z -> Prop) (fuel : nat) (N x y : Z)
    (params1 params2 : P) (m1 m2 : mem) :
  1 <= N -> x <> 0 -> y <> 0 ->
  (iterations (N * sizeof_float) <= fuel)%nat ->
  (forall a, A a -> m1 a = m2 a) ->
  (forall i, 0 <= i < N -> A (x + i)) ->
  exists m1' m2' t,
    xnn_f32_relu_ukernel__sse_x4 fuel (N * sizeof_float) x y params1 m1
      = Done tt m1' t /\
    xnn_f32_relu_ukernel__sse_x4 fuel (N * sizeof_float) x y params2 m2
      = Done tt m2' t /\
    (forall a, A a \/ y <= a < y + N -> m1' a = m2' a).
Proof.
  intros HN Hx Hy Hfuel Hag HA.
  destruct (split_count N HN) as (Hk & HR & Hsplit & Hdiv & Hmod).
  unfold iterations in Hfuel. change (4 * sizeof_float) with 16 in Hfuel.
  rewrite Hdiv in Hfuel.
  set (n := N * sizeof_float) in *.
  set (k := N / 4) in *. set (R := N mod 4) in *.
  assert (Hn : n = 16 * k + 4 * R) by (unfold n, sizeof_float; lia).
  destruct (main_loop_agree (Z.to_nat k) A fuel n x y m1 m2
              (4 * R) (x + 4 * k) (y + 4 * k))
    as (ma & mb & Hruna & Hrunb & Hagab); try lia; try assumption.
  { intros i Hi. apply HA. lia. }
  rewrite !kernel_valid_unfold;
    try (unfold n, sizeof_float; lia);
    try (unfold n; apply Z.mod_mul; unfold sizeof_float; lia);
    try assumption.
  destruct (Z.eq_dec R 0) as [HR0 | HR0].
  - exists ma, mb. eexists.
    split; [| split].
    + eapply bind_Done; [exact Hruna |]. cbv beta iota.
      rewrite HR0. reflexivity.
    + eapply bind_Done; [exact Hrunb |]. cbv beta iota.
      rewrite HR0. reflexivity.
    + intros a Ha. apply Hagab. destruct Ha; [now left | right; lia].
  - destruct (tail_agree (fun a => A a \/ y <= a < y + 4 * k)
                (4 * R) (x + 4 * k) (y + 4 * k) ma mb R)
      as (m1' & m2' & Hrun1 & Hrun2 & Hag');
      [unfold sizeof_float; lia | lia | exact Hagab | |].
    { intros i Hi. left. replace (x + 4 * k + i) with (x + (4 * k + i)) by lia.
      apply HA. lia. }
    assert (Hguard : negb (4 * R =? 0) = true)
      by (apply negb_true_iff, Z.eqb_neq; lia).
    exists m1', m2'. eexists.
    split; [| split].
    + eapply bind_Done; [exact Hruna |]. cbv beta iota.
      rewrite Hguard. exact Hrun1.
    + eapply bind_Done; [exact Hrunb |]. cbv beta iota.
      rewrite Hguard. exact Hrun2.
    + intros a Ha. apply Hag'.
      destruct Ha as [Ha | Ha]; [left; left; exact Ha |].
      destruct (Z.lt_ge_cases a (y + 4 * k)); [left; right; lia | right; lia].
Qed.

End Dependence.

(** * The claims *)

Section Claims.

Context {P : Type}.

(** C1.  For every element count [N >= 1] and every input buffer of [N]
    finite floats, a call with [n = N * sizeof(float)] completes and leaves
    [output[i] == max(input[i], 0.0)] for every [i < N], where [==] is the
    comparison of C and [max] the scalar reference.  It holds in place and
    for a separate output buffer, and whatever the memory after the input
    buffer holds. *)
Theorem relu_matches_scalar_max
    (fuel : nat) (N x y : Z) (params : P) (m : mem) :
  1 <= N -> x <> 0 -> y <> 0 ->
  in_place_or_disjoint x y N ->
  (iterations (N * sizeof_float) <= fuel)%nat ->
  (forall i, 0 <= i < N -> is_finite (m (x + i)) = true) ->
  exists m' t,
    xnn_f32_relu_ukernel__sse_x4 fuel (N * sizeof_float) x y params m
      = Done tt m' t /\
    forall i, 0 <= i < N ->
      eqb (m' (y + i)) (max_ref (m (x + i)) pzero) = true.
Proof.
  intros HN Hx Hy Hal Hfuel Hfin.
  destruct (kernel_spec fuel N x y params m HN Hx Hy Hfuel)
    as (m' & Hrun & _ & Hval).
  exists m'. eexists. split; [exact Hrun |].
  intros i Hi.
  rewrite Hval by (try apply in_place_or_disjoint_no_clobber; auto; lia).
  apply MAX_eq_max_ref, Hfin, Hi.
Qed.

(** C9.  On the buffer [-3.5, 0.0, 2.25, -0.0, 7.0] the kernel produces
    [0.0, 0.0, 2.25, 0.0, 7.0] with every zero positive: the negative zero
    is clamped to positive zero. *)
Theorem mixed_input_result
    (fuel : nat) (x y : Z) (params : P) (m : mem) :
  x <> 0 -> y <> 0 ->
  in_place_or_disjoint x y 5 ->
  (1 <= fuel)%nat ->
  read_buf m x 5 = mixed_input ->
  exists m' t,
    xnn_f32_relu_ukernel__sse_x4 fuel (5 * sizeof_float) x y params m
      = Done tt m' t /\
    read_buf m' y 5 = mixed_output.
Proof.
  intros Hx Hy Hal Hfuel Hin.
  destruct (kernel_spec fuel 5 x y params m ltac:(lia) Hx Hy Hfuel)
    as (m' & Hrun & _ & Hval).
  exists m'. eexists. split; [exact Hrun |].
  specialize (Hval (in_place_or_disjoint_no_clobber _ _ _ Hal ltac:(lia))).
  assert (Hm : forall i, 0 <= i < 5 ->
                 m (x + i) = nth (Z.to_nat i) mixed_input S754_nan).
  { intros i Hi. rewrite <- Hin. symmetry. apply read_buf_nth. lia. }
  unfold read_buf, cells. cbn [seq map Z.of_nat].
  rewrite !Hval, !Hm by lia. reflexivity.
Qed.

(** C10.  A NaN input element gives exactly [+0.0] in the output, and so
    does a [-0.0] input element: the zero vector is the second operand of
    [_mm_max_ps], and MAXPS returns its second operand in both cases. *)
Theorem nan_never_propagates
    (fuel : nat) (N x y : Z) (params : P) (m : mem) :
  1 <= N -> x <> 0 -> y <> 0 ->
  in_place_or_disjoint x y N ->
  (iterations (N * sizeof_float) <= fuel)%nat ->
  exists m' t,
    xnn_f32_relu_ukernel__sse_x4 fuel (N * sizeof_float) x y params m
      = Done tt m' t /\
    forall i, 0 <= i < N ->
      is_nan (m (x + i)) = true \/ m (x + i) = nzero ->
      m' (y + i) = pzero.
Proof.
  intros HN Hx Hy Hal Hfuel.
  destruct (kernel_spec fuel N x y params m HN Hx Hy Hfuel)
    as (m' & Hrun & _ & Hval).
  exists m'. eexists. split; [exact Hrun |].
  intros i Hi Hcase.
  rewrite Hval by (try apply in_place_or_disjoint_no_clobber; auto; lia).
  destruct Hcase as [Hnan | Hz].
  - now apply MAX_nan.
  - rewrite Hz. reflexivity.
Qed.

(** C2, as amended.  When the remainder [R = N mod 4] is not zero, the
    tail's full-width load starts at element [N - R], the first one the main
    loop left: it reads elements [N - R .. N - R + 3], the first [R] of them
    inside the buffer and the last [4 - R] (one to three) past its end.  The
    cells read by the whole call are exactly [x .. x + N + (4 - R) - 1]. *)
Theorem tail_load_footprint
    (fuel : nat) (N x y : Z) (params : P) (m : mem) :
  1 <= N -> x <> 0 -> y <> 0 ->
  N mod 4 <> 0 ->
  (iterations (N * sizeof_float) <= fuel)%nat ->
  exists m' t,
    xnn_f32_relu_ukernel__sse_x4 fuel (N * sizeof_float) x y params m
      = Done tt m' t /\
    t = main_trace (Z.to_nat (N / 4)) x y ++
        Load (x + (N - N mod 4)) 4 ::
        tail_stores (N * sizeof_float) (y + (N - N mod 4)) /\
    loads t = cells x (Z.to_nat (N + (4 - N mod 4))) /\
    1 <= 4 - N mod 4 <= 3.
Proof.
  intros HN Hx Hy HR Hfuel.
  destruct (kernel_spec fuel N x y params m HN Hx Hy Hfuel)
    as (m' & Hrun & _ & _).
  destruct (split_count N HN) as (Hk & HRb & Hsplit & _ & Hmod).
  assert (Htr : tail_trace (N * sizeof_float) (x + 4 * (N / 4)) (y + 4 * (N / 4))
                = Load (x + (N - N mod 4)) 4 ::
                  tail_stores (N * sizeof_float) (y + (N - N mod 4))).
  { unfold tail_trace. change (4 * sizeof_float) with 16. rewrite Hmod.
    replace (N mod 4 * sizeof_float =? 0) with false
      by (symmetry; apply Z.eqb_neq; unfold sizeof_float; lia).
    replace (4 * (N / 4)) with (N - N mod 4) by lia. reflexivity. }
  rewrite Htr in Hrun.
  exists m'. eexists. split; [exact Hrun |]. split; [reflexivity |].
  split; [| lia].
  rewrite loads_app, loads_main_trace.
  replace (Z.to_nat (N + (4 - N mod 4)))
    with (4 * Z.to_nat (N / 4) + 4)%nat by lia.
  rewrite cells_app. f_equal.
  unfold loads. cbn [flat_map loads_of].
  replace (flat_map loads_of (tail_stores (N * sizeof_float) (y + (N - N mod 4))))
    with (@nil Z).
  - rewrite app_nil_r. f_equal. lia.
  - unfold tail_stores.
    destruct (negb (Z.land _ (2 * sizeof_float) =? 0)),
             (negb (Z.land _ (1 * sizeof_float) =? 0)); reflexivity.
Qed.

(** C3.  A valid call writes the output cells [y .. y+N-1], each once and in
    increasing order, and nothing else: the tail stores exactly the
    [R = N mod 4] remaining elements, by a two-lane store when bit
    [2 * sizeof(float)] of [n] is set followed by a one-lane store when bit
    [1 * sizeof(float)] is set, and every cell outside the first [N] output
    elements keeps its value. *)
Theorem stores_confined_to_output
    (fuel : nat) (N x y : Z) (params : P) (m : mem) :
  1 <= N -> x <> 0 -> y <> 0 ->
  (iterations (N * sizeof_float) <= fuel)%nat ->
  let n := N * sizeof_float in
  let t_tail := tail_trace n (x + 4 * (N / 4)) (y + 4 * (N / 4)) in
  exists m',
    xnn_f32_relu_ukernel__sse_x4 fuel n x y params m
      = Done tt m' (main_trace (Z.to_nat (N / 4)) x y ++ t_tail) /\
    stores t_tail = cells (y + 4 * (N / 4)) (Z.to_nat (N mod 4)) /\
    stores (main_trace (Z.to_nat (N / 4)) x y ++ t_tail)
      = cells y (Z.to_nat N) /\
    forall a, ~ (y <= a < y + N) -> m' a = m a.
Proof.
  intros HN Hx Hy Hfuel n t_tail.
  destruct (kernel_spec fuel N x y params m HN Hx Hy Hfuel)
    as (m' & Hrun & Hframe & _).
  destruct (split_count N HN) as (Hk & HRb & Hsplit & _ & _).
  assert (Hst : stores t_tail = cells (y + 4 * (N / 4)) (Z.to_nat (N mod 4)))
    by (apply stores_tail_trace; exact HN).
  exists m'. split; [exact Hrun |]. split; [exact Hst |]. split; [| exact Hframe].
  rewrite stores_app, stores_main_trace, Hst.
  replace (Z.to_nat N) with (4 * Z.to_nat (N / 4) + Z.to_nat (N mod 4))%nat
    by lia.
  rewrite cells_app. do 2 f_equal. lia.
Qed.

(** C4.  In-place equivalence: a call whose output buffer is the input
    buffer leaves in it the same [N] values that a call with a separate
    output buffer leaves in that buffer. *)
Theorem in_place_equivalence
    (fuel : nat) (N x y : Z) (params : P) (m : mem) :
  1 <= N -> x <> 0 -> y <> 0 ->
  y + N <= x \/ x + N <= y ->
  (iterations (N * sizeof_float) <= fuel)%nat ->
  exists m_in t_in m_sep t_sep,
    xnn_f32_relu_ukernel__sse_x4 fuel (N * sizeof_float) x x params m
      = Done tt m_in t_in /\
    xnn_f32_relu_ukernel__sse_x4 fuel (N * sizeof_float) x y params m
      = Done tt m_sep t_sep /\
    read_buf m_in x (Z.to_nat N) = read_buf m_sep y (Z.to_nat N).
Proof.
  intros HN Hx Hy Hsep Hfuel.
  destruct (kernel_spec fuel N x x params m HN Hx Hx Hfuel)
    as (m_in & Hrun_in & _ & Hval_in).
  destruct (kernel_spec fuel N x y params m HN Hx Hy Hfuel)
    as (m_sep & Hrun_sep & _ & Hval_sep).
  exists m_in. eexists. exists m_sep. eexists.
  split; [exact Hrun_in |]. split; [exact Hrun_sep |].
  apply read_buf_ext. intros i Hi.
  rewrite Hval_in, Hval_sep; unfold no_clobber; try lia. reflexivity.
Qed.

(** C5.  Idempotence: running the kernel on the output of a first run gives
    that output again. *)
Theorem idempotence
    (fuel : nat) (N x y z : Z) (params : P) (m : mem) :
  1 <= N -> x <> 0 -> y <> 0 -> z <> 0 ->
  in_place_or_disjoint x y N ->
  in_place_or_disjoint y z N ->
  (iterations (N * sizeof_float) <= fuel)%nat ->
  exists m1 t1 m2 t2,
    xnn_f32_relu_ukernel__sse_x4 fuel (N * sizeof_float) x y params m
      = Done tt m1 t1 /\
    xnn_f32_relu_ukernel__sse_x4 fuel (N * sizeof_float) y z params m1
      = Done tt m2 t2 /\
    read_buf m2 z (Z.to_nat N) = read_buf m1 y (Z.to_nat N).
Proof.
  intros HN Hx Hy Hz Hxy Hyz Hfuel.
  destruct (kernel_spec fuel N x y params m HN Hx Hy Hfuel)
    as (m1 & Hrun1 & _ & Hval1).
  destruct (kernel_spec fuel N y z params m1 HN Hy Hz Hfuel)
    as (m2 & Hrun2 & _ & Hval2).
  exists m1. eexists. exists m2. eexists.
  split; [exact Hrun1 |]. split; [exact Hrun2 |].
  apply read_buf_ext. intros i Hi.
  rewrite Hval2, Hval1;
    try (apply in_place_or_disjoint_no_clobber; auto; lia); try lia.
  apply MAX_idem.
Qed.

(** C6.  The parameter block is never consulted.  Two calls that differ
    only in the block passed end in the same way, with the same memory and
    log; and if the two memories also differ, but only on cells [block]
    that are not input elements (where the caller keeps the block, say),
    both calls complete with the same log, the same output buffer, and
    memories that still differ on [block] at most. *)
Theorem params_noninterference
    (fuel : nat) (N x y : Z) (params1 params2 : P) (m1 m2 : mem)
    (block : Z -> Prop) :
  1 <= N -> x <> 0 -> y <> 0 ->
  (iterations (N * sizeof_float) <= fuel)%nat ->
  (forall a, ~ block a -> m1 a = m2 a) ->
  (forall i, 0 <= i < N -> ~ block (x + i)) ->
  xnn_f32_relu_ukernel__sse_x4 fuel (N * sizeof_float) x y params1 m1
    = xnn_f32_relu_ukernel__sse_x4 fuel (N * sizeof_float) x y params2 m1 /\
  exists m1' m2' t,
    xnn_f32_relu_ukernel__sse_x4 fuel (N * sizeof_float) x y params1 m1
      = Done tt m1' t /\
    xnn_f32_relu_ukernel__sse_x4 fuel (N * sizeof_float) x y params2 m2
      = Done tt m2' t /\
    read_buf m1' y (Z.to_nat N) = read_buf m2' y (Z.to_nat N) /\
    (forall a, ~ block a -> m1' a = m2' a).
Proof.
  intros HN Hx Hy Hfuel Hag Hblock. split; [reflexivity |].
  destruct (kernel_agree (fun a => ~ block a) fuel N x y params1 params2 m1 m2
              HN Hx Hy Hfuel Hag Hblock)
    as (m1' & m2' & t & Hrun1 & Hrun2 & Hag').
  exists m1', m2', t. split; [exact Hrun1 |]. split; [exact Hrun2 |]. split.
  - apply read_buf_ext. intros i Hi. apply Hag'. right. lia.
  - intros a Ha. apply Hag'. now left.
Qed.

(** C7.  When [N] is a positive multiple of 4 the main loop exits with a
    residual byte count of zero and the tail is not executed: the call ends
    with the memory and the log of the main loop alone, a log made of
    full-width loads and stores only. *)
Theorem tail_skipped_on_full_vectors
    (fuel : nat) (N x y : Z) (params : P) (m : mem) :
  1 <= N -> N mod 4 = 0 -> x <> 0 -> y <> 0 ->
  (iterations (N * sizeof_float) <= fuel)%nat ->
  exists m' t,
    main_loop fuel _mm_setzero_ps (N * sizeof_float) x y m
      = Done (0, x + N, y + N) m' t /\
    xnn_f32_relu_ukernel__sse_x4 fuel (N * sizeof_float) x y params m
      = Done tt m' t /\
    t = main_trace (Z.to_nat (N / 4)) x y.
Proof.
  intros HN HR Hx Hy Hfuel.
  destruct (split_count N HN) as (Hk & _ & Hsplit & Hdiv & _).
  unfold iterations in Hfuel. change (4 * sizeof_float) with 16 in Hfuel.
  rewrite Hdiv in Hfuel.
  destruct (main_loop_spec (Z.to_nat (N / 4)) fuel (N * sizeof_float) x y m
              0 (x + N) (y + N))
    as (m' & Hrun & _ & _); try (unfold sizeof_float; lia).
  exists m'. eexists. split; [exact Hrun |]. split; [| reflexivity].
  rewrite kernel_valid_unfold;
    [| unfold sizeof_float; lia
     | apply Z.mod_mul; unfold sizeof_float; lia
     | exact Hx | exact Hy ].
  erewrite bind_Done; [| exact Hrun | reflexivity].
  now rewrite app_nil_r.
Qed.

End Claims.

(** * Concrete runs *)

Ltac below_5 i :=
  let H := fresh in
  assert (H : i = 0 \/ i = 1 \/ i = 2 \/ i = 3 \/ i = 4) by lia;
  destruct H as [-> | [-> | [-> | [-> | ->]]]].

(** The test vector holds the values it is meant to hold, as binary32
    numbers in canonical form: [-3.5 = -14680064 * 2^-22],
    [2.25 = 9437184 * 2^-22], [7.0 = 14680064 * 2^-21]. *)
Example mixed_input_values :
  mixed_input
  = [S754_finite true 14680064 (-22); S754_zero false;
     S754_finite false 9437184 (-22); S754_zero true;
     S754_finite false 14680064 (-21)]
  /\ forallb valid mixed_input = true.
Proof. split; reflexivity. Qed.

(** [N = 1]: no iteration of the main loop, one full-width load, one
    single-lane store. *)
Example run_one_element :
  exists m',
    xnn_f32_relu_ukernel__sse_x4 0 (1 * sizeof_float) 102 200 tt demo_mem
      = Done tt m' [Load 102 4; Store 200 1] /\
    read_buf m' 200 1 = [of_Z_pow2 9 (-2)].
Proof. eexists. split; reflexivity. Qed.

(** [N = 4]: one iteration of the main loop and nothing else. *)
Example run_four_elements :
  exists m',
    xnn_f32_relu_ukernel__sse_x4 1 (4 * sizeof_float) 100 200 tt demo_mem
      = Done tt m' [Load 100 4; Store 200 4] /\
    read_buf m' 200 4 = [pzero; pzero; of_Z_pow2 9 (-2); pzero].
Proof. eexists. split; reflexivity. Qed.

(** [N = 7] over all-negative values [-1 .. -7]: one iteration, then a tail
    of three elements stored as two lanes and one lane; all zeros. *)
Example run_seven_negative :
  let input := map (fun v => of_Z_pow2 (- v) 0) [1; 2; 3; 4; 5; 6; 7] in
  exists m',
    xnn_f32_relu_ukernel__sse_x4 1 (7 * sizeof_float) 100 100 tt
        (mem_of_list 100 input all_nan)
      = Done tt m'
          [Load 100 4; Store 100 4; Load 104 4; Store 104 2; Store 106 1] /\
    read_buf m' 100 7 = repeat pzero 7.
Proof. eexists. split; reflexivity. Qed.

(** A budget below the number of iterations is reported, not mistaken for a
    result; a zero byte count and a null pointer fail their assertions. *)
Example run_rejected :
  xnn_f32_relu_ukernel__sse_x4 0 (5 * sizeof_float) 100 200 tt demo_mem
    = OutOfFuel /\
  xnn_f32_relu_ukernel__sse_x4 1 0 100 200 tt demo_mem = AssertFail /\
  xnn_f32_relu_ukernel__sse_x4 1 6 100 200 tt demo_mem = AssertFail /\
  xnn_f32_relu_ukernel__sse_x4 1 (5 * sizeof_float) 0 200 tt demo_mem
    = AssertFail.
Proof. repeat split; reflexivity. Qed.

Lemma relu_matches_scalar_max_witness :
  exists m' t,
    xnn_f32_relu_ukernel__sse_x4 1 (5 * sizeof_float) 100 200 tt demo_mem
      = Done tt m' t /\
    forall i, 0 <= i < 5 ->
      eqb (m' (200 + i)) (max_ref (demo_mem (100 + i)) pzero) = true.
Proof.
  apply (relu_matches_scalar_max (P := unit) 1 5 100 200 tt demo_mem);
    [ lia | lia | lia | unfold in_place_or_disjoint; lia
    | vm_compute; lia
    | intros i Hi; below_5 i; reflexivity ].
Defined.

(** Against C2 as stated: on five elements the tail's load is at element 4
    and reads elements 4 to 7, so element 5, for one, is read although the
    buffer ends at element 4. *)
Lemma tail_load_reads_past_end :
  exists m' t,
    xnn_f32_relu_ukernel__sse_x4 1 (5 * sizeof_float) 100 200 tt demo_mem
      = Done tt m' t /\
    5 mod 4 <> 0 /\
    In (100 + 5) (loads t) /\
    ~ reads_within t 100 5.
Proof.
  eexists. eexists. split; [reflexivity |].
  assert (Hin : In (100 + 5)
                   (loads [Load 100 4; Store 200 4; Load 104 4; Store 204 1])).
  { simpl. do 5 right. left. reflexivity. }
  split; [discriminate |]. split; [exact Hin |].
  intros H. unfold reads_within in H. rewrite Forall_forall in H.
  specialize (H _ Hin). lia.
Qed.

Lemma tail_load_footprint_witness :
  exists m' t,
    xnn_f32_relu_ukernel__sse_x4 1 (5 * sizeof_float) 100 200 tt demo_mem
      = Done tt m' t /\
    t = main_trace (Z.to_nat (5 / 4)) 100 200 ++
        Load (100 + (5 - 5 mod 4)) 4 ::
        tail_stores (5 * sizeof_float) (200 + (5 - 5 mod 4)) /\
    loads t = cells 100 (Z.to_nat (5 + (4 - 5 mod 4))) /\
    1 <= 4 - 5 mod 4 <= 3.
Proof.
  apply (tail_load_footprint (P := unit) 1 5 100 200 tt demo_mem);
    [ lia | lia | lia | discriminate | vm_compute; lia ].
Defined.

Lemma stores_confined_to_output_witness :
  let n := 5 * sizeof_float in
  let t_tail := tail_trace n (100 + 4 * (5 / 4)) (200 + 4 * (5 / 4)) in
  exists m',
    xnn_f32_relu_ukernel__sse_x4 1 n 100 200 tt demo_mem
      = Done tt m' (main_trace (Z.to_nat (5 / 4)) 100 200 ++ t_tail) /\
    stores t_tail = cells (200 + 4 * (5 / 4)) (Z.to_nat (5 mod 4)) /\
    stores (main_trace (Z.to_nat (5 / 4)) 100 200 ++ t_tail)
      = cells 200 (Z.to_nat 5) /\
    forall a, ~ (200 <= a < 200 + 5) -> m' a = demo_mem a.
Proof.
  apply (stores_confined_to_output (P := unit) 1 5 100 200 tt demo_mem);
    [ lia | lia | lia | vm_compute; lia ].
Defined.

Lemma in_place_equivalence_witness :
  exists m_in t_in m_sep t_sep,
    xnn_f32_relu_ukernel__sse_x4 1 (5 * sizeof_float) 100 100 tt demo_mem
      = Done tt m_in t_in /\
    xnn_f32_relu_ukernel__sse_x4 1 (5 * sizeof_float) 100 200 tt demo_mem
      = Done tt m_sep t_sep /\
    read_buf m_in 100 (Z.to_nat 5) = read_buf m_sep 200 (Z.to_nat 5).
Proof.
  apply (in_place_equivalence (P := unit) 1 5 100 200 tt demo_mem);
    [ lia | lia | lia | lia | vm_compute; lia ].
Defined.

Lemma idempotence_witness :
  exists m1 t1 m2 t2,
    xnn_f32_relu_ukernel__sse_x4 1 (5 * sizeof_float) 100 200 tt demo_mem
      = Done tt m1 t1 /\
    xnn_f32_relu_ukernel__sse_x4 1 (5 * sizeof_float) 200 200 tt m1
      = Done tt m2 t2 /\
    read_buf m2 200 (Z.to_nat 5) = read_buf m1 200 (Z.to_nat 5).
Proof.
  apply (idempotence (P := unit) 1 5 100 200 200 tt demo_mem);
    [ lia | lia | lia | lia
    | unfold in_place_or_disjoint; lia
    | unfold in_place_or_disjoint; lia
    | vm_compute; lia ].
Defined.

(** The same run with two parameter blocks and with two different contents
    of cells 300 and 301. *)
Lemma params_noninterference_witness :
  let m2 := upd (upd demo_mem 300 pzero) 301 (of_Z_pow2 1 0) in
  xnn_f32_relu_ukernel__sse_x4 1 (5 * sizeof_float) 100 200 true demo_mem
    = xnn_f32_relu_ukernel__sse_x4 1 (5 * sizeof_float) 100 200 false demo_mem /\
  exists m1' m2' t,
    xnn_f32_relu_ukernel__sse_x4 1 (5 * sizeof_float) 100 200 true demo_mem
      = Done tt m1' t /\
    xnn_f32_relu_ukernel__sse_x4 1 (5 * sizeof_float) 100 200 false m2
      = Done tt m2' t /\
    read_buf m1' 200 (Z.to_nat 5) = read_buf m2' 200 (Z.to_nat 5) /\
    (forall a, ~ (300 <= a < 302) -> m1' a = m2' a).
Proof.
  apply (params_noninterference (P := bool) 1 5 100 200 true false demo_mem
           (upd (upd demo_mem 300 pzero) 301 (of_Z_pow2 1 0))
           (fun a => 300 <= a < 302));
    [ lia | lia | lia | vm_compute; lia
    | intros a Ha; upd_cases; reflexivity
    | intros i Hi; lia ].
Defined.

Lemma tail_skipped_on_full_vectors_witness :
  exists m' t,
    main_loop 1 _mm_setzero_ps (4 * sizeof_float) 100 200 demo_mem
      = Done (0, 100 + 4, 200 + 4) m' t /\
    xnn_f32_relu_ukernel__sse_x4 1 (4 * sizeof_float) 100 200 tt demo_mem
      = Done tt m' t /\
    t = main_trace (Z.to_nat (4 / 4)) 100 200.
Proof.
  apply (tail_skipped_on_full_vectors (P := unit) 1 4 100 200 tt demo_mem);
    [ lia | reflexivity | lia | lia | vm_compute; lia ].
Defined.

Lemma mixed_input_result_witness :
  exists m' t,
    xnn_f32_relu_ukernel__sse_x4 1 (5 * sizeof_float) 100 100 tt demo_mem
      = Done tt m' t /\
    read_buf m' 100 5 = mixed_output.
Proof.
  apply (mixed_input_result (P := unit) 1 100 100 tt demo_mem);
    [ lia | lia | unfold in_place_or_disjoint; lia | lia | reflexivity ].
Defined.

(** Cells 103, 104 and 105 of [demo_mem] hold [-0.0], [7.0] and NaN. *)
Lemma nan_never_propagates_witness :
  exists m' t,
    xnn_f32_relu_ukernel__sse_x4 0 (3 * sizeof_float) 103 200 tt demo_mem
      = Done tt m' t /\
    forall i, 0 <= i < 3 ->
      is_nan (demo_mem (103 + i)) = true \/ demo_mem (103 + i) = nzero ->
      m' (200 + i) = pzero.
Proof.
  apply (nan_never_propagates (P := unit) 0 3 103 200 tt demo_mem);
    [ lia | lia | lia | unfold in_place_or_disjoint; lia | vm_compute; lia ].
Defined.

(** * Further properties of the kernel *)

(** ** Lanes *)

(** The result of a lane is never a NaN, never negative and never [-0.0],
    and it is a binary32 value when the input is. *)
Lemma MAX_range (v : float) :
  is_nan (MAX v pzero) = false /\
  ltb (MAX v pzero) pzero = false /\
  MAX v pzero <> nzero /\
  (valid v = true -> valid (MAX v pzero) = true).
Proof.
  destruct v as [s | s | | s m e]; try destruct s;
    repeat split; try reflexivity; try discriminate; intros H; exact H.
Qed.

(** ** Assertions *)

Lemma main_loop_never_fails (vz : __m128) (fuel : nat) :
  forall (n x y : Z) (m : mem), main_loop fuel vz n x y m <> AssertFail.
Proof.
  induction fuel as [| fuel IH]; intros n x y m; cbn [main_loop];
    destruct (4 * sizeof_float <=? n); try discriminate.
  unfold bind, _mm_loadu_ps, _mm_storeu_ps.
  match goal with
  | |- context [main_loop fuel vz ?a ?b ?c ?d] =>
      specialize (IH a b c d); destruct (main_loop fuel vz a b c d)
  end; congruence.
Qed.

Lemma tail_completes (vz : __m128) (n x y : Z) (m : mem) :
  exists m' t, tail vz n x y m = Done tt m' t.
Proof.
  unfold tail, bind, _mm_loadu_ps.
  destruct (negb (Z.land n (2 * sizeof_float) =? 0)),
           (negb (Z.land n (1 * sizeof_float) =? 0));
    eexists; eexists; reflexivity.
Qed.

(** ** Cells *)

Lemma NoDup_cells (k : nat) : forall p : Z, NoDup (cells p k).
Proof.
  induction k as [| k IH]; intros p; [constructor |].
  change (S k) with (1 + k)%nat. rewrite cells_app.
  cbn [cells seq map app]. constructor; [| apply IH].
  rewrite in_cells. lia.
Qed.

Lemma loads_tail_stores (n y : Z) : loads (tail_stores n y) = [].
Proof.
  unfold tail_stores.
  destruct (negb (Z.land n (2 * sizeof_float) =? 0)),
           (negb (Z.land n (1 * sizeof_float) =? 0)); reflexivity.
Qed.

(** The number of vectors that cover [N] elements. *)
Lemma vectors_covering (N : Z) :
  1 <= N ->
  (N + 3) / 4 = N / 4 + (if N mod 4 =? 0 then 0 else 1).
Proof.
  intros HN. destruct (split_count N HN) as (_ & HR & Hsplit & _ & _).
  replace (N + 3) with (N mod 4 + 3 + N / 4 * 4) by lia.
  rewrite Z.div_add by lia.
  assert (Hc : N mod 4 = 0 \/ N mod 4 = 1 \/ N mod 4 = 2 \/ N mod 4 = 3) by lia.
  destruct Hc as [-> | [-> | [-> | ->]]];
    [ change ((0 + 3) / 4) with 0 | change ((1 + 3) / 4) with 1
    | change ((2 + 3) / 4) with 1 | change ((3 + 3) / 4) with 1 ];
    cbn [Z.eqb]; lia.
Qed.

(** ** Splitting the main loop *)

(** The first [k] iterations of the main loop do not depend on how many
    more follow: they leave a memory [m1] from which the rest of the loop
    carries on. *)
Lemma main_loop_prefix (vz : __m128) (k : nat) :
  forall (x y : Z) (m : mem),
  exists m1,
    forall (fuel : nat) (n : Z),
      16 * Z.of_nat k <= n ->
      main_loop (k + fuel) vz n x y m
      = match main_loop fuel vz (n - 16 * Z.of_nat k)
                (x + 4 * Z.of_nat k) (y + 4 * Z.of_nat k) m1 with
        | Done r m2 t2 => Done r m2 (main_trace k x y ++ t2)
        | AssertFail => AssertFail
        | OutOfFuel => OutOfFuel
        end.
Proof.
  induction k as [| k IH]; intros x y m.
  - exists m. intros fuel n Hn.
    replace (n - 16 * Z.of_nat 0) with n by lia.
    replace (x + 4 * Z.of_nat 0) with x by lia.
    replace (y + 4 * Z.of_nat 0) with y by lia.
    cbn [Nat.add main_trace app].
    destruct (main_loop fuel vz n x y m); reflexivity.
  - pose (v := _mm_max_ps (mk_m128 (m x) (m (x + 1)) (m (x + 2)) (m (x + 3))) vz).
    destruct (IH (x + 4) (y + 4)
                 (upd (upd (upd (upd m y (lane0 v)) (y + 1) (lane1 v))
                           (y + 2) (lane2 v)) (y + 3) (lane3 v)))
      as (m1 & H1).
    exists m1. intros fuel n Hn.
    specialize (H1 fuel (n - 16) ltac:(lia)).
    replace (n - 16 - 16 * Z.of_nat k) with (n - 16 * Z.of_nat (S k))
      in H1 by lia.
    replace (x + 4 + 4 * Z.of_nat k) with (x + 4 * Z.of_nat (S k))
      in H1 by lia.
    replace (y + 4 + 4 * Z.of_nat k) with (y + 4 * Z.of_nat (S k))
      in H1 by lia.
    cbn [Nat.add main_loop]. change (4 * sizeof_float) with 16.
    replace (16 <=? n) with true by (symmetry; apply Z.leb_le; lia).
    unfold bind, _mm_loadu_ps, _mm_storeu_ps. fold v.
    rewrite H1.
    destruct (main_loop fuel vz _ _ _ m1); reflexivity.
Qed.

Section Further.

Context {P : Type}.

(** X1.  Element by element and for every float, NaN and infinities
    included: the output element is the input element itself when that is
    greater than zero, and [+0.0] otherwise.  It holds whenever the output
    buffer starts at or before the input buffer, overlapping or not, or lies
    wholly after it. *)
Theorem relu_exact
    (fuel : nat) (N x y : Z) (params : P) (m : mem) :
  1 <= N -> x <> 0 -> y <> 0 ->
  no_clobber x y N ->
  (iterations (N * sizeof_float) <= fuel)%nat ->
  exists m' t,
    xnn_f32_relu_ukernel__sse_x4 fuel (N * sizeof_float) x y params m
      = Done tt m' t /\
    forall i, 0 <= i < N ->
      m' (y + i) = if ltb pzero (m (x + i)) then m (x + i) else pzero.
Proof.
  intros HN Hx Hy Hnc Hfuel.
  destruct (kernel_spec fuel N x y params m HN Hx Hy Hfuel)
    as (m' & Hrun & _ & Hval).
  exists m'. eexists. split; [exact Hrun |].
  intros i Hi. rewrite Hval by assumption. apply MAX_zero_cases.
Qed.

(** X2.  Whatever the input holds, no output element is a NaN, none is
    below zero and none is [-0.0]; an output element is a binary32 value
    whenever the input element it comes from is one. *)
Theorem output_is_nonnegative
    (fuel : nat) (N x y : Z) (params : P) (m : mem) :
  1 <= N -> x <> 0 -> y <> 0 ->
  no_clobber x y N ->
  (iterations (N * sizeof_float) <= fuel)%nat ->
  exists m' t,
    xnn_f32_relu_ukernel__sse_x4 fuel (N * sizeof_float) x y params m
      = Done tt m' t /\
    forall i, 0 <= i < N ->
      is_nan (m' (y + i)) = false /\
      ltb (m' (y + i)) pzero = false /\
      m' (y + i) <> nzero /\
      (valid (m (x + i)) = true -> valid (m' (y + i)) = true).
Proof.
  intros HN Hx Hy Hnc Hfuel.
  destruct (kernel_spec fuel N x y params m HN Hx Hy Hfuel)
    as (m' & Hrun & _ & Hval).
  exists m'. eexists. split; [exact Hrun |].
  intros i Hi. rewrite Hval by assumption. apply MAX_range.
Qed.

(** X3.  A call fails an assertion exactly when the byte count is zero or
    not a multiple of [sizeof(float)], or a pointer is null; the loop and
    the tail contain no assertion. *)
Theorem assertion_failure_iff
    (fuel : nat) (n x y : Z) (params : P) (m : mem) :
  xnn_f32_relu_ukernel__sse_x4 fuel n x y params m = AssertFail
  <-> n = 0 \/ n mod sizeof_float <> 0 \/ x = 0 \/ y = 0.
Proof.
  split.
  - intros Hfail.
    destruct (Z.eq_dec n 0) as [Hn | Hn]; [now left |].
    destruct (Z.eq_dec (n mod sizeof_float) 0) as [Hm | Hm];
      [| right; now left].
    destruct (Z.eq_dec x 0) as [Hx | Hx]; [right; right; now left |].
    destruct (Z.eq_dec y 0) as [Hy | Hy]; [right; right; now right |].
    exfalso. rewrite kernel_valid_unfold in Hfail by assumption.
    unfold bind in Hfail.
    pose proof (main_loop_never_fails _mm_setzero_ps fuel n x y m) as Hloop.
    destruct (main_loop fuel _mm_setzero_ps n x y m)
      as [[[n' x'] y'] m1 t1 | |]; try congruence.
    destruct (negb (n' =? 0)).
    + destruct (tail_completes _mm_setzero_ps n' x' y' m1) as (m2 & t2 & Ht).
      rewrite Ht in Hfail. discriminate.
    + discriminate.
  - intros H. unfold xnn_f32_relu_ukernel__sse_x4, bind, assert.
    destruct (Z.eqb_spec n 0) as [Hn | Hn]; [reflexivity |].
    destruct (Z.eqb_spec (n mod sizeof_float) 0) as [Hm | Hm];
      [| reflexivity].
    destruct (Z.eqb_spec x 0) as [Hx | Hx]; [reflexivity |].
    destruct (Z.eqb_spec y 0) as [Hy | Hy]; [reflexivity |].
    exfalso. destruct H as [H | [H | [H | H]]]; contradiction.
Qed.

(** X4.  The cells read by a valid call are the input cells rounded up to
    whole vectors, [x .. x + 4 * ceil(N / 4) - 1], each read once and in
    increasing order: never a cell before the buffer, never more than three
    after it, and none outside it when [N] is a multiple of 4. *)
Theorem read_footprint
    (fuel : nat) (N x y : Z) (params : P) (m : mem) :
  1 <= N -> x <> 0 -> y <> 0 ->
  (iterations (N * sizeof_float) <= fuel)%nat ->
  exists m' t,
    xnn_f32_relu_ukernel__sse_x4 fuel (N * sizeof_float) x y params m
      = Done tt m' t /\
    loads t = cells x (Z.to_nat (4 * ((N + 3) / 4))) /\
    NoDup (loads t) /\
    (forall a, In a (loads t) -> x <= a < x + N + 3) /\
    (N mod 4 = 0 -> reads_within t x N).
Proof.
  intros HN Hx Hy Hfuel.
  destruct (kernel_spec fuel N x y params m HN Hx Hy Hfuel)
    as (m' & Hrun & _ & _).
  destruct (split_count N HN) as (Hk & HR & Hsplit & _ & Hmod).
  pose proof (vectors_covering N HN) as Hceil.
  exists m'. eexists. split; [exact Hrun |].
  assert (Hloads :
            loads (main_trace (Z.to_nat (N / 4)) x y ++
                   tail_trace (N * sizeof_float)
                              (x + 4 * (N / 4)) (y + 4 * (N / 4)))
            = cells x (Z.to_nat (4 * ((N + 3) / 4)))).
  { rewrite loads_app, loads_main_trace, Hceil.
    unfold tail_trace. change (4 * sizeof_float) with 16. rewrite Hmod.
    destruct (Z.eqb_spec (N mod 4) 0) as [H0 | H0].
    - rewrite H0. change (0 * sizeof_float =? 0) with true.
      cbn [loads flat_map]. rewrite app_nil_r. f_equal. lia.
    - replace (N mod 4 * sizeof_float =? 0) with false
        by (symmetry; apply Z.eqb_neq; unfold sizeof_float; lia).
      change (loads (Load (x + 4 * (N / 4)) 4 :: ?l))
        with (cells (x + 4 * (N / 4)) 4 ++ loads l).
      rewrite loads_tail_stores, app_nil_r.
      replace (Z.to_nat (4 * (N / 4 + 1)))
        with (4 * Z.to_nat (N / 4) + 4)%nat by lia.
      rewrite cells_app. do 2 f_equal. lia. }
  rewrite Hloads. split; [reflexivity |]. split; [apply NoDup_cells |].
  split.
  - intros a Ha. apply in_cells in Ha.
    destruct (Z.eqb_spec (N mod 4) 0); lia.
  - intros H0. unfold reads_within. rewrite Hloads.
    apply Forall_forall. intros a Ha. apply in_cells in Ha.
    destruct (Z.eqb_spec (N mod 4) 0); lia.
Qed.

(** X5.  A buffer may be processed in pieces.  A call on the first [N1]
    elements, [N1] a multiple of 4, followed by a call on the next [N2]
    elements with both pointers advanced by [N1], leaves exactly the memory
    that one call on all [N1 + N2] elements leaves, and performs the same
    accesses in the same order.  No assumption is made on how the buffers
    overlap. *)
Theorem chunked_call
    (fuel : nat) (N1 N2 x y : Z) (params : P) (m : mem) :
  1 <= N1 -> N1 mod 4 = 0 -> 1 <= N2 ->
  x <> 0 -> y <> 0 -> x + N1 <> 0 -> y + N1 <> 0 ->
  (iterations ((N1 + N2) * sizeof_float) <= fuel)%nat ->
  exists m1 t1 m2 t2,
    xnn_f32_relu_ukernel__sse_x4 fuel (N1 * sizeof_float) x y params m
      = Done tt m1 t1 /\
    xnn_f32_relu_ukernel__sse_x4 fuel (N2 * sizeof_float)
        (x + N1) (y + N1) params m1
      = Done tt m2 t2 /\
    xnn_f32_relu_ukernel__sse_x4 fuel ((N1 + N2) * sizeof_float) x y params m
      = Done tt m2 (t1 ++ t2).
Proof.
  intros HN1 Hmult HN2 Hx Hy Hx2 Hy2 Hfuel.
  destruct (split_count N1 HN1) as (Hk1 & _ & Hsplit1 & Hdiv1 & _).
  destruct (split_count N2 HN2) as (Hk2 & _ & _ & Hdiv2 & _).
  destruct (split_count (N1 + N2) ltac:(lia)) as (_ & _ & _ & Hdiv & _).
  assert (Hq : (N1 + N2) / 4 = N1 / 4 + N2 / 4).
  { replace (N1 + N2) with (N2 + N1 / 4 * 4) by lia.
    rewrite Z.div_add by lia. lia. }
  unfold iterations in Hfuel. change (4 * sizeof_float) with 16 in Hfuel.
  rewrite Hdiv, Hq in Hfuel.
  set (k := Z.to_nat (N1 / 4)).
  assert (Hk : 4 * Z.of_nat k = N1) by (unfold k; lia).
  destruct (main_loop_prefix _mm_setzero_ps k x y m) as (m1 & Hpre).
  assert (Hit1 : iterations (N1 * sizeof_float) = k)
    by (unfold iterations; change (4 * sizeof_float) with 16;
        rewrite Hdiv1; reflexivity).
  assert (Hit2 : iterations (N2 * sizeof_float) = Z.to_nat (N2 / 4))
    by (unfold iterations; change (4 * sizeof_float) with 16;
        rewrite Hdiv2; reflexivity).
  assert (Hit : iterations ((N1 + N2) * sizeof_float)
                = (k + Z.to_nat (N2 / 4))%nat)
    by (unfold iterations; change (4 * sizeof_float) with 16;
        rewrite Hdiv, Hq; unfold k; lia).
  (* the first call: [k] iterations and no tail *)
  assert (Hrun1 :
            xnn_f32_relu_ukernel__sse_x4 fuel (N1 * sizeof_float) x y params m
            = Done tt m1 (main_trace k x y)).
  { rewrite kernel_valid_unfold;
      [| unfold sizeof_float; lia
       | apply Z.mod_mul; unfold sizeof_float; lia
       | exact Hx | exact Hy ].
    unfold bind.
    rewrite (main_loop_fuel_irrelevant _ fuel (k + 0)) by lia.
    rewrite Hpre by (unfold sizeof_float; lia).
    rewrite main_loop_exit by (unfold sizeof_float; lia).
    replace (N1 * sizeof_float - 16 * Z.of_nat k) with 0
      by (unfold sizeof_float; lia).
    cbn. now rewrite !app_nil_r. }
  (* the second call, from the memory the first one left *)
  destruct (kernel_spec fuel N2 (x + N1) (y + N1) params m1 HN2 Hx2 Hy2)
    as (m2 & Hrun2 & _); [lia |].
  exists m1, (main_trace k x y), m2. eexists.
  split; [exact Hrun1 |]. split; [exact Hrun2 |].
  (* the single call goes through the same two phases *)
  rewrite kernel_valid_unfold in Hrun2 |- *;
    try (unfold sizeof_float; lia);
    try (apply Z.mod_mul; unfold sizeof_float; lia);
    try assumption.
  unfold bind in Hrun2 |- *.
  rewrite (main_loop_fuel_irrelevant _ fuel (k + fuel)) by lia.
  rewrite Hpre by (unfold sizeof_float; lia).
  replace ((N1 + N2) * sizeof_float - 16 * Z.of_nat k)
    with (N2 * sizeof_float) by (unfold sizeof_float; lia).
  rewrite Hk.
  destruct (main_loop fuel _mm_setzero_ps (N2 * sizeof_float)
              (x + N1) (y + N1) m1)
    as [[[r x'] y'] ma ta | |]; try discriminate.
  destruct ((if negb (r =? 0) then tail _mm_setzero_ps r x' y' else ret tt) ma)
    as [u mb tb | |]; try discriminate.
  rewrite <- app_assoc. congruence.
Qed.

(** X6.  The output buffer is written without being read: when it does
    not overlap the input buffer, two memories that differ only in what the
    output buffer held before the call are identical, cell for cell, after
    it. *)
Theorem output_fully_overwritten
    (fuel : nat) (N x y : Z) (params : P) (m1 m2 : mem) :
  1 <= N -> x <> 0 -> y <> 0 ->
  y + N <= x \/ x + N <= y ->
  (iterations (N * sizeof_float) <= fuel)%nat ->
  (forall a, ~ (y <= a < y + N) -> m1 a = m2 a) ->
  exists m1' m2' t,
    xnn_f32_relu_ukernel__sse_x4 fuel (N * sizeof_float) x y params m1
      = Done tt m1' t /\
    xnn_f32_relu_ukernel__sse_x4 fuel (N * sizeof_float) x y params m2
      = Done tt m2' t /\
    forall a, m1' a = m2' a.
Proof.
  intros HN Hx Hy Hsep Hfuel Hag.
  destruct (kernel_agree (fun a => ~ (y <= a < y + N)) fuel N x y
              params params m1 m2 HN Hx Hy Hfuel Hag)
    as (m1' & m2' & t & Hrun1 & Hrun2 & Hag'); [intros i Hi; lia |].
  exists m1', m2', t. split; [exact Hrun1 |]. split; [exact Hrun2 |].
  intros a. apply Hag'.
  destruct (Z.lt_ge_cases a y); [left; lia |].
  destruct (Z.lt_ge_cases a (y + N)); [right; lia | left; lia].
Qed.

End Further.

(** ** Concrete runs of the further properties *)

(** Output one cell before the input, overlapping it. *)
Lemma relu_exact_witness :
  exists m' t,
    xnn_f32_relu_ukernel__sse_x4 1 (5 * sizeof_float) 100 99 tt demo_mem
      = Done tt m' t /\
    forall i, 0 <= i < 5 ->
      m' (99 + i)
      = if ltb pzero (demo_mem (100 + i)) then demo_mem (100 + i) else pzero.
Proof.
  apply (relu_exact (P := unit) 1 5 100 99 tt demo_mem);
    [ lia | lia | lia | unfold no_clobber; lia | vm_compute; lia ].
Defined.

Lemma output_is_nonnegative_witness :
  exists m' t,
    xnn_f32_relu_ukernel__sse_x4 0 (3 * sizeof_float) 103 200 tt demo_mem
      = Done tt m' t /\
    forall i, 0 <= i < 3 ->
      is_nan (m' (200 + i)) = false /\
      ltb (m' (200 + i)) pzero = false /\
      m' (200 + i) <> nzero /\
      (valid (demo_mem (103 + i)) = true -> valid (m' (200 + i)) = true).
Proof.
  apply (output_is_nonnegative (P := unit) 0 3 103 200 tt demo_mem);
    [ lia | lia | lia | unfold no_clobber; lia | vm_compute; lia ].
Defined.

Lemma read_footprint_witness :
  exists m' t,
    xnn_f32_relu_ukernel__sse_x4 1 (5 * sizeof_float) 100 200 tt demo_mem
      = Done tt m' t /\
    loads t = cells 100 (Z.to_nat (4 * ((5 + 3) / 4))) /\
    NoDup (loads t) /\
    (forall a, In a (loads t) -> 100 <= a < 100 + 5 + 3) /\
    (5 mod 4 = 0 -> reads_within t 100 5).
Proof.
  apply (read_footprint (P := unit) 1 5 100 200 tt demo_mem);
    [ lia | lia | lia | vm_compute; lia ].
Defined.

Lemma chunked_call_witness :
  exists m1 t1 m2 t2,
    xnn_f32_relu_ukernel__sse_x4 1 (4 * sizeof_float) 100 200 tt demo_mem
      = Done tt m1 t1 /\
    xnn_f32_relu_ukernel__sse_x4 1 (1 * sizeof_float)
        (100 + 4) (200 + 4) tt m1
      = Done tt m2 t2 /\
    xnn_f32_relu_ukernel__sse_x4 1 ((4 + 1) * sizeof_float) 100 200 tt demo_mem
      = Done tt m2 (t1 ++ t2).
Proof.
  apply (chunked_call (P := unit) 1 4 1 100 200 tt demo_mem);
    [ lia | reflexivity | lia | lia | lia | lia | lia | vm_compute; lia ].
Defined.

Lemma output_fully_overwritten_witness :
  exists m1' m2' t,
    xnn_f32_relu_ukernel__sse_x4 1 (5 * sizeof_float) 100 200 tt demo_mem
      = Done tt m1' t /\
    xnn_f32_relu_ukernel__sse_x4 1 (5 * sizeof_float) 100 200 tt
        (upd demo_mem 202 (of_Z_pow2 7 0))
      = Done tt m2' t /\
    forall a, m1' a = m2' a.
Proof.
  apply (output_fully_overwritten (P := unit) 1 5 100 200 tt demo_mem
           (upd demo_mem 202 (of_Z_pow2 7 0)));
    [ lia | lia | lia | lia | vm_compute; lia
    | intros a Ha; upd_cases; reflexivity ].
Defined.

(** * The call under memory protection *)

(** ** The log of a valid call *)

Lemma kernel_trace_loads (N x y : Z) :
  1 <= N ->
  loads (main_trace (Z.to_nat (N / 4)) x y ++
         tail_trace (N * sizeof_float) (x + 4 * (N / 4)) (y + 4 * (N / 4)))
  = cells x (Z.to_nat (4 * ((N + 3) / 4))).
Proof.
  intros HN.
  destruct (split_count N HN) as (Hk & HR & Hsplit & _ & Hmod).
  rewrite loads_app, loads_main_trace, (vectors_covering N HN).
  unfold tail_trace. change (4 * sizeof_float) with 16. rewrite Hmod.
  destruct (Z.eqb_spec (N mod 4) 0) as [H0 | H0].
  - rewrite H0. change (0 * sizeof_float =? 0) with true.
    cbn [loads flat_map]. rewrite app_nil_r. f_equal. lia.
  - replace (N mod 4 * sizeof_float =? 0) with false
      by (symmetry; apply Z.eqb_neq; unfold sizeof_float; lia).
    change (loads (Load (x + 4 * (N / 4)) 4 :: ?l))
      with (cells (x + 4 * (N / 4)) 4 ++ loads l).
    rewrite loads_tail_stores, app_nil_r.
    replace (Z.to_nat (4 * (N / 4 + 1)))
      with (4 * Z.to_nat (N / 4) + 4)%nat by lia.
    rewrite cells_app. do 2 f_equal. lia.
Qed.

Lemma kernel_trace_stores (N x y : Z) :
  1 <= N ->
  stores (main_trace (Z.to_nat (N / 4)) x y ++
          tail_trace (N * sizeof_float) (x + 4 * (N / 4)) (y + 4 * (N / 4)))
  = cells y (Z.to_nat N).
Proof.
  intros HN.
  destruct (split_count N HN) as (Hk & HR & Hsplit & _ & _).
  rewrite stores_app, stores_main_trace, stores_tail_trace by exact HN.
  replace (Z.to_nat N) with (4 * Z.to_nat (N / 4) + Z.to_nat (N mod 4))%nat
    by lia.
  rewrite cells_app. do 2 f_equal. lia.
Qed.

(** A log is permitted when the cells it reads are readable and the cells
    it writes are writable. *)
Lemma permitted_log (prot : Protected.protection) (t : list event) :
  (forall a, In a (loads t) -> Protected.readable prot a = true) ->
  (forall a, In a (stores t) -> Protected.writable prot a = true) ->
  Forall (fun e => Protected.permitted prot e = true) t.
Proof.
  induction t as [| e t IH]; intros Hr Hw; constructor.
  - destruct e as [p k | p k]; cbn [Protected.permitted];
      apply forallb_forall; intros a Ha.
    + apply Hr. unfold loads. cbn [flat_map loads_of]. apply in_or_app. now left.
    + apply Hw. unfold stores. cbn [flat_map stores_of]. apply in_or_app. now left.
  - apply IH.
    + intros a Ha. apply Hr. unfold loads. cbn [flat_map].
      apply in_or_app. now right.
    + intros a Ha. apply Hw. unfold stores. cbn [flat_map].
      apply in_or_app. now right.
Qed.

(** ** The protected run follows the unprotected one *)

(** As long as every access of the log is permitted, the protected code
    goes through the same accesses and ends with the same memory. *)
Lemma protected_main_loop (prot : Protected.protection) (vz : __m128)
    (fuel : nat) :
  forall (n x y : Z) (m : mem) (r : Z * Z * Z) (m' : mem) (t : list event),
    main_loop fuel vz n x y m = Done r m' t ->
    Forall (fun e => Protected.permitted prot e = true) t ->
    Protected.main_loop prot fuel vz n x y m = Protected.Completed r m' t.
Proof.
  induction fuel as [| fuel IH]; intros n x y m r m' t Hrun Hperm;
    cbn [main_loop Protected.main_loop] in *;
    destruct (4 * sizeof_float <=? n).
  - discriminate.
  - injection Hrun as <- <- <-. reflexivity.
  - unfold bind, _mm_loadu_ps, _mm_storeu_ps in Hrun.
    destruct (main_loop fuel vz _ _ _ _) as [r2 m2 t2 | |] eqn:E in Hrun;
      try discriminate.
    injection Hrun as <- <- <-. cbn [app] in Hperm.
    inversion Hperm as [| ? ? Hl Hrest]; subst.
    inversion Hrest as [| ? ? Hs Ht2]; subst.
    unfold Protected.bind, Protected._mm_loadu_ps, Protected._mm_storeu_ps,
      Protected.guarded.
    rewrite Hl, Hs. unfold _mm_loadu_ps, _mm_storeu_ps.
    rewrite (IH _ _ _ _ _ _ _ E Ht2). reflexivity.
  - injection Hrun as <- <- <-. reflexivity.
Qed.

Lemma protected_tail (prot : Protected.protection) (vz : __m128)
    (n x y : Z) (m m' : mem) (t : list event) :
  tail vz n x y m = Done tt m' t ->
  Forall (fun e => Protected.permitted prot e = true) t ->
  Protected.tail prot vz n x y m = Protected.Completed tt m' t.
Proof.
  unfold tail, Protected.tail, bind, Protected.bind,
    Protected._mm_loadu_ps, Protected._mm_storel_pi, Protected._mm_store_ss,
    Protected.guarded.
  destruct (negb (Z.land n (2 * sizeof_float) =? 0)),
           (negb (Z.land n (1 * sizeof_float) =? 0));
    intros Hrun Hperm; cbn in Hrun; injection Hrun as <- <-;
    repeat match goal with
           | H : Forall _ (_ :: _) |- _ =>
               inversion H; subst; clear H
           end;
    cbn -[Protected.permitted];
    repeat match goal with
           | H : Protected.permitted _ _ = true |- _ =>
               rewrite H; clear H; cbn -[Protected.permitted]
           end;
    reflexivity.
Qed.

Section ProtectedKernel.

Context {P : Type}.

Lemma protected_kernel (prot : Protected.protection) (fuel : nat)
    (n x y : Z) (params : P) (m m' : mem) (t : list event) :
  xnn_f32_relu_ukernel__sse_x4 fuel n x y params m = Done tt m' t ->
  Forall (fun e => Protected.permitted prot e = true) t ->
  Protected.xnn_f32_relu_ukernel__sse_x4 prot fuel n x y params m
  = Protected.Completed tt m' t.
Proof.
  unfold xnn_f32_relu_ukernel__sse_x4, Protected.xnn_f32_relu_ukernel__sse_x4.
  unfold bind at 1 2 3 4, Protected.bind at 1 2 3 4.
  unfold assert, Protected.assert.
  destruct (negb (n =? 0)); [| discriminate].
  destruct (n mod sizeof_float =? 0); [| discriminate].
  destruct (negb (x =? 0)); [| discriminate].
  destruct (negb (y =? 0)); [| discriminate].
  unfold bind, Protected.bind.
  destruct (main_loop fuel _mm_setzero_ps n x y m)
    as [[[n' x'] y'] m1 t1 | |] eqn:Eloop; try discriminate.
  destruct ((if negb (n' =? 0) then tail _mm_setzero_ps n' x' y' else ret tt) m1)
    as [[] m2 t2 | |] eqn:Etail; try discriminate.
  cbn [app]. intros Hrun Hperm. injection Hrun as <- <-.
  apply Forall_app in Hperm as [Hp1 Hp2].
  rewrite (protected_main_loop prot _ _ _ _ _ _ _ _ _ Eloop Hp1).
  destruct (negb (n' =? 0)).
  - rewrite (protected_tail prot _ _ _ _ _ _ _ Etail Hp2). reflexivity.
  - injection Etail as <- <-. reflexivity.
Qed.

(** The budget is irrelevant for the whole call as well. *)
Lemma kernel_fuel_irrelevant (fuel1 fuel2 : nat) (n x y : Z) (params : P)
    (m : mem) :
  (iterations n <= fuel1)%nat -> (iterations n <= fuel2)%nat ->
  xnn_f32_relu_ukernel__sse_x4 fuel1 n x y params m
  = xnn_f32_relu_ukernel__sse_x4 fuel2 n x y params m.
Proof.
  intros H1 H2. unfold xnn_f32_relu_ukernel__sse_x4, bind, assert.
  destruct (negb (n =? 0)); [| reflexivity].
  destruct (n mod sizeof_float =? 0); [| reflexivity].
  destruct (negb (x =? 0)); [| reflexivity].
  destruct (negb (y =? 0)); [| reflexivity].
  rewrite (main_loop_fuel_irrelevant _ fuel1 fuel2) by assumption.
  reflexivity.
Qed.

(** C8, as amended.  On valid arguments (a non-zero byte count that is a
    multiple of [sizeof(float)], non-null pointers) and provided the input
    buffer is readable up to the next whole vector (up to three floats past
    its end when [N mod 4 <> 0]) and the [N] output floats are writable, the
    kernel is total and deterministic.  The main loop ends after exactly
    [n / (4 * sizeof(float))] iterations, each taking [4 * sizeof(float)]
    off the byte count, with a residual below [4 * sizeof(float)]; the call
    runs to completion without being killed, for every budget that covers
    the iterations; and two calls whose [N] input floats are identical go
    through the same accesses and produce identical output buffers, whatever
    else the two memories hold. *)
Theorem protected_call_total_and_deterministic
    (prot : Protected.protection) (fuel1 fuel2 : nat) (n x y : Z)
    (params : P) (m1 m2 : mem) :
  0 < n -> n mod sizeof_float = 0 -> x <> 0 -> y <> 0 ->
  (forall a, x <= a < x + 4 * ((n / sizeof_float + 3) / 4) ->
             Protected.readable prot a = true) ->
  (forall a, y <= a < y + n / sizeof_float ->
             Protected.writable prot a = true) ->
  (iterations n <= fuel1)%nat -> (iterations n <= fuel2)%nat ->
  (forall i, 0 <= i < n / sizeof_float -> m1 (x + i) = m2 (x + i)) ->
  let k := Z.of_nat (iterations n) in
  let t := main_trace (iterations n) x y ++
           tail_trace n (x + 4 * k) (y + 4 * k) in
  (exists ml,
     Protected.main_loop prot fuel1 _mm_setzero_ps n x y m1
     = Protected.Completed
         (n - 4 * sizeof_float * k, x + 4 * k, y + 4 * k) ml
         (main_trace (iterations n) x y)) /\
  0 <= n - 4 * sizeof_float * k < 4 * sizeof_float /\
  exists m1' m2',
    Protected.xnn_f32_relu_ukernel__sse_x4 prot fuel1 n x y params m1
      = Protected.Completed tt m1' t /\
    Protected.xnn_f32_relu_ukernel__sse_x4 prot fuel2 n x y params m2
      = Protected.Completed tt m2' t /\
    read_buf m1' y (Z.to_nat (n / sizeof_float))
    = read_buf m2' y (Z.to_nat (n / sizeof_float)).
Proof.
  intros Hn Hmod Hx Hy Hread Hwrite Hf1 Hf2 Hin.
  assert (HN : exists N, n = N * sizeof_float /\ 1 <= N /\ N = n / sizeof_float).
  { exists (n / sizeof_float). unfold sizeof_float in *.
    pose proof (Z.div_mod n 4 ltac:(lia)). lia. }
  destruct HN as (N & -> & HN & HNdiv).
  rewrite <- HNdiv in *. clear HNdiv Hn Hmod.
  destruct (split_count N HN) as (Hk & HR & Hsplit & Hdiv & _).
  assert (Hit : iterations (N * sizeof_float) = Z.to_nat (N / 4))
    by (unfold iterations; change (4 * sizeof_float) with 16;
        rewrite Hdiv; reflexivity).
  rewrite Hit in *. rewrite Z2Nat.id by lia. cbv zeta.
  replace (N * sizeof_float - 4 * sizeof_float * (N / 4)) with (4 * (N mod 4))
    by (unfold sizeof_float; lia).
  (* the unprotected runs *)
  destruct (kernel_agree (fun a => x <= a < x + N) (Z.to_nat (N / 4)) N x y
              params params m1 m2 HN Hx Hy)
    as (m1' & m2' & t0 & Hrun1 & Hrun2 & Hag).
  { rewrite Hit. lia. }
  { intros a Ha. replace a with (x + (a - x)) by lia. apply Hin. lia. }
  { intros i Hi. lia. }
  destruct (kernel_spec (Z.to_nat (N / 4)) N x y params m1 HN Hx Hy)
    as (m'' & Hspec & _); [rewrite Hit; lia |].
  rewrite Hrun1 in Hspec. injection Hspec as _ ->.
  (* every access of the log is permitted *)
  match type of Hrun1 with _ = Done _ _ ?T => set (T0 := T) in * end.
  assert (Hperm : Forall (fun e => Protected.permitted prot e = true) T0).
  { apply permitted_log; intros a Ha; subst T0.
    - rewrite kernel_trace_loads in Ha by exact HN.
      apply in_cells in Ha. apply Hread. lia.
    - rewrite kernel_trace_stores in Ha by exact HN.
      apply in_cells in Ha. apply Hwrite. lia. }
  split; [| split; [unfold sizeof_float; lia |]].
  - destruct (main_loop_spec (Z.to_nat (N / 4)) fuel1 (N * sizeof_float) x y m1
                (4 * (N mod 4)) (x + 4 * (N / 4)) (y + 4 * (N / 4)))
      as (ml & Hloop & _); try (unfold sizeof_float; lia).
    exists ml. apply protected_main_loop; [exact Hloop |].
    subst T0. apply Forall_app in Hperm. apply Hperm.
  - exists m1', m2'. split; [| split].
    + apply protected_kernel; [| exact Hperm].
      rewrite (kernel_fuel_irrelevant fuel1 (Z.to_nat (N / 4)))
        by (rewrite ?Hit; lia).
      exact Hrun1.
    + apply protected_kernel; [| exact Hperm].
      rewrite (kernel_fuel_irrelevant fuel2 (Z.to_nat (N / 4)))
        by (rewrite ?Hit; lia).
      exact Hrun2.
    + apply read_buf_ext. intros i Hi. apply Hag. right. lia.
Qed.

End ProtectedKernel.

(** Against C8 as stated: a call that meets the three listed conditions is
    killed when the process owns the two buffers and nothing more.  With one
    element the tail's load at [x] covers three floats it may not read; with
    five elements the same happens at [x + 4], after the first iteration. *)
Lemma valid_call_killed_by_tail_load :
  (0 < 4 /\ 4 mod sizeof_float = 0 /\ 100 <> 0 /\ 200 <> 0) /\
  Protected.xnn_f32_relu_ukernel__sse_x4
    (Protected.exact_buffers 100 200 1) (iterations 4) 4 100 200 tt demo_mem
  = Protected.Killed [] (Load 100 4) /\
  Protected.xnn_f32_relu_ukernel__sse_x4
    (Protected.exact_buffers 100 200 5) (iterations 20) 20 100 200 tt demo_mem
  = Protected.Killed [Load 100 4; Store 200 4] (Load 104 4).
Proof.
  split; [repeat split; (lia || reflexivity || discriminate) |].
  split; reflexivity.
Qed.

(** Five elements, the input readable up to cell 107; the second memory
    differs from the first after the input buffer and in the output
    buffer. *)
Lemma protected_call_total_and_deterministic_witness :
  let prot := Protected.padded_buffers 100 200 5 in
  let m2 := upd (upd demo_mem 106 pzero) 201 (of_Z_pow2 7 0) in
  let k := Z.of_nat (iterations 20) in
  let t := main_trace (iterations 20) 100 200 ++
           tail_trace 20 (100 + 4 * k) (200 + 4 * k) in
  (exists ml,
     Protected.main_loop prot 1 _mm_setzero_ps 20 100 200 demo_mem
     = Protected.Completed
         (20 - 4 * sizeof_float * k, 100 + 4 * k, 200 + 4 * k) ml
         (main_trace (iterations 20) 100 200)) /\
  0 <= 20 - 4 * sizeof_float * k < 4 * sizeof_float /\
  exists m1' m2',
    Protected.xnn_f32_relu_ukernel__sse_x4 prot 1 20 100 200 tt demo_mem
      = Protected.Completed tt m1' t /\
    Protected.xnn_f32_relu_ukernel__sse_x4 prot 7 20 100 200 tt m2
      = Protected.Completed tt m2' t /\
    read_buf m1' 200 (Z.to_nat (20 / sizeof_float))
    = read_buf m2' 200 (Z.to_nat (20 / sizeof_float)).
Proof.
  apply (protected_call_total_and_deterministic (P := unit)
           (Protected.padded_buffers 100 200 5) 1 7 20 100 200 tt demo_mem
           (upd (upd demo_mem 106 pzero) 201 (of_Z_pow2 7 0)));
    [ lia | reflexivity | lia | lia
    | intros a Ha; change (4 * ((20 / sizeof_float + 3) / 4)) with 8 in Ha;
      cbn [Protected.padded_buffers Protected.readable];
      apply orb_true_iff; left; apply andb_true_iff;
      split; [apply Z.leb_le | apply Z.ltb_lt];
      change (4 * ((5 + 3) / 4)) with 8; lia
    | intros a Ha; change (20 / sizeof_float) with 5 in Ha;
      cbn [Protected.padded_buffers Protected.writable];
      apply andb_true_iff; split; [apply Z.leb_le | apply Z.ltb_lt]; lia
    | vm_compute; lia | vm_compute; lia
    | intros i Hi; change (20 / sizeof_float) with 5 in Hi;
      upd_cases; reflexivity ].
Defined.
